(** * PyIRCParser: a shallow embedding of [ircparser.py]

    The module decodes one line of IRC protocol text into six fields
    (server, channel, recipient, user, type, msg).  Python strings are
    modelled as [string] over the code points 0..255, Python lists as
    [list], [None] as the absent case of [option], and raised exceptions
    as the [Raise] case of [result]. *)

From Stdlib Require Import Strings.String Strings.Ascii Lists.List Bool.Bool.
From Stdlib Require Import Arith.PeanoNat ZArith.ZArith Lia.
Import ListNotations.

Local Open Scope string_scope.
Local Open Scope list_scope.
Local Open Scope nat_scope.

(** ** Exceptions and results *)

Inductive exn : Type :=
  | IndexError
  | ValueError
  | NameError.

Inductive result (A : Type) : Type :=
  | Normal (a : A)
  | Raise (e : exn).

Arguments Normal {A} a.
Arguments Raise {A} e.

Definition bind {A B : Type} (m : result A) (k : A -> result B) : result B :=
  match m with
  | Normal a => k a
  | Raise e => Raise e
  end.

Definition ret {A : Type} (a : A) : result A := Normal a.

Notation "x <- m ;; k" := (bind m (fun x => k))
  (at level 61, m at next level, right associativity).

(** ** Python string and list primitives *)

Module Py.

(** [l[n]] for a non-negative literal index [n]. *)
Definition index {A : Type} (l : list A) (n : nat) : result A :=
  match nth_error l n with
  | Some a => Normal a
  | None => Raise IndexError
  end.

(** [c in s] for a one-character [c]. *)
Fixpoint contains (c : ascii) (s : string) : bool :=
  match s with
  | EmptyString => false
  | String a r => Ascii.eqb a c || contains c r
  end.

(** [s.startswith(p)]. *)
Definition startswith (p s : string) : bool := String.prefix p s.

(** The head piece and the later pieces of [s] cut at every [sep]. *)
Fixpoint pieces (sep : ascii) (s : string) : string * list string :=
  match s with
  | EmptyString => (EmptyString, [])
  | String a r =>
      let '(h, t) := pieces sep r in
      if Ascii.eqb a sep then (EmptyString, h :: t) else (String a h, t)
  end.

(** [s.split(sep)] for a one-character separator: empty pieces are kept. *)
Definition split (sep : ascii) (s : string) : list string :=
  let '(h, t) := pieces sep s in h :: t.

(** [str.isspace] on the code points below 256. *)
Definition isspace (a : ascii) : bool :=
  let n := nat_of_ascii a in
  ((9 <=? n) && (n <=? 13)) || ((28 <=? n) && (n <=? 32))
  || (n =? 133) || (n =? 160).

Definition cons_word (w : string) (ws : list string) : list string :=
  match w with
  | EmptyString => ws
  | _ => w :: ws
  end.

(** The word being read at the front of [s] and the words after it. *)
Fixpoint words_from (s : string) : string * list string :=
  match s with
  | EmptyString => (EmptyString, [])
  | String a r =>
      let '(w, ws) := words_from r in
      if isspace a then (EmptyString, cons_word w ws) else (String a w, ws)
  end.

(** [s.split()] with no argument: runs of whitespace separate, and no
    empty word is produced. *)
Definition words (s : string) : list string :=
  let '(w, ws) := words_from s in cons_word w ws.

(** [sep.join(l)]. *)
Fixpoint join (sep : string) (l : list string) : string :=
  match l with
  | [] => EmptyString
  | [x] => x
  | x :: r => x ++ sep ++ join sep r
  end.

Definition isdigit (a : ascii) : bool :=
  let n := nat_of_ascii a in (48 <=? n) && (n <=? 57).

Definition digit_val (a : ascii) : Z := Z.of_nat (nat_of_ascii a) - 48.

(** Digits of a decimal literal read left to right; one underscore may
    stand between two digits.  [prev] tells whether the character just
    read was a digit. *)
Fixpoint digits (prev : bool) (acc : Z) (s : string) : option Z :=
  match s with
  | EmptyString => if prev then Some acc else None
  | String a r =>
      if isdigit a then digits true (10 * acc + digit_val a)%Z r
      else if Ascii.eqb a "_" then (if prev then digits false acc r else None)
      else None
  end.

(** [int(c)] in base ten on a string without whitespace: an optional
    sign, then digits.  The interpreter's configurable cap on the number
    of digits is left out. *)
Definition int (c : string) : result Z :=
  let '(neg, body) :=
    match c with
    | String "-" r => (true, r)
    | String "+" r => (false, r)
    | _ => (false, c)
    end in
  match digits false 0%Z body with
  | Some z => Normal (if neg then (- z)%Z else z)
  | None => Raise ValueError
  end.

(** [len(s) > 1 and s[0:1] in ['@', '!', '&', '~']] is decided on the
    first character. *)
Definition is_sigil (a : ascii) : bool :=
  Ascii.eqb a "@" || Ascii.eqb a "!" || Ascii.eqb a "&" || Ascii.eqb a "~".

(** Truth value of an optional string: [None] and [''] are false. *)
Definition truthy (v : option string) : bool :=
  match v with
  | None => false
  | Some EmptyString => false
  | Some _ => true
  end.

End Py.

(** ** The decoder's helper functions *)

Definition tokenize (s : string) : list string :=
  let s := Py.split ":" s in
  if 1 <? length s then skipn 1 s else [].

Definition getNickname (t : list string) : result string :=
  t0 <- Py.index t 0 ;;
  Py.index (Py.split "!" t0) 0.

Definition strippedNickname (s : string) : string :=
  match s with
  | String a (String b r) => if Py.is_sigil a then String b r else s
  | _ => s
  end.

Definition getHostname (t : list string) : result string :=
  t0 <- Py.index t 0 ;;
  p <- Py.index (Py.split "!" t0) 1 ;;
  h <- Py.index (Py.split "@" p) 1 ;;
  Py.index (Py.words h) 0.

Definition getUser (t : list string) : result string :=
  t0 <- Py.index t 0 ;;
  p <- Py.index (Py.split "!" t0) 1 ;;
  Py.index (Py.split "@" p) 0.

Definition getChannel (t : list string) : result (option string) :=
  t0 <- Py.index t 0 ;;
  ret (find (Py.startswith "#") (Py.words t0)).

Definition getRecipient (t : list string) : result string :=
  t0 <- Py.index t 0 ;;
  Py.index (Py.words t0) 2.

Definition getServer (t : list string) : result string :=
  t0 <- Py.index t 0 ;;
  Py.index (Py.words t0) 0.

Definition getAction (t : list string) : result string :=
  t0 <- Py.index t 0 ;;
  Py.index (Py.words t0) 1.

Definition isServerMessage (t : list string) : result bool :=
  t0 <- Py.index t 0 ;;
  w <- Py.index (Py.words t0) 0 ;;
  ret (negb (Py.contains "!" w)).

Definition getIRCCode (t : list string) : result (option string) :=
  t0 <- Py.index t 0 ;;
  c <- Py.index (Py.words t0) 1 ;;
  match Py.int c with
  | Raise ValueError => ret None
  | Raise e => Raise e
  | Normal _ => ret (Some c)
  end.

Definition opt_is (v : option string) (k : string) : bool :=
  match v with
  | Some s => String.eqb s k
  | None => false
  end.

Definition getMsg (t : list string) (code action : option string)
  : result (option string) :=
  if 1 <? length t then ret (Some (Py.join ":" (skipn 1 t)))
  else if opt_is code "333" then
    t0 <- Py.index t 0 ;;
    ret (Some (Py.join " " (skipn 4 (Py.words t0))))
  else if opt_is action "MODE" then
    t0 <- Py.index t 0 ;;
    ret (Some (Py.join " " (skipn 3 (Py.words t0))))
  else ret None.

(** ** Output values *)

Inductive value : Type :=
  | VNone
  | VStr (s : string)
  | VTuple (l : list string).

Inductive output_value : Type :=
  | OutTuple (l : list value)
  | OutList (l : list value)
  | OutDict (d : list (string * value))
  | OutObject (attrs : list (string * value)).

Definition of_str (v : option string) : value :=
  match v with
  | Some s => VStr s
  | None => VNone
  end.

Definition of_user (v : option (string * string * string)) : value :=
  match v with
  | Some (n, u, h) => VTuple [n; u; h]
  | None => VNone
  end.

(** [setattr(obj, key, val)] on the attribute table of an instance: an
    attribute that exists is rebound in place, a new one is added last. *)
Fixpoint setattr (attrs : list (string * value)) (key : string) (val : value)
  : list (string * value) :=
  match attrs with
  | [] => [(key, val)]
  | (k, v) :: r =>
      if String.eqb k key then (k, val) :: r else (k, v) :: setattr r key val
  end.

(** [ParseOutput()]: the six attributes bound to [None] by [__init__]. *)
Definition ParseOutput : list (string * value) :=
  [("server", VNone); ("channel", VNone); ("recipient", VNone);
   ("user", VNone); ("type", VNone); ("msg", VNone)].

Definition getOutputObject (d : list (string * value)) : output_value :=
  OutObject (fold_left (fun obj kv => setattr obj (fst kv) (snd kv)) d ParseOutput).

(** ** The decoder *)

(** The local variables of [_parse] when it reaches its [return].  [code]
    is bound only on the branch that is not the PING one. *)
Record locals : Type := mkLocals {
  server : option string;
  channel : option string;
  recipient : option string;
  user : option (string * string * string);
  action : option string;
  code : option (option string);
  msg : option string
}.

(** Reading the local [code]: a name that was never bound raises. *)
Definition lookup_code (l : locals) : result (option string) :=
  match code l with
  | Some c => ret c
  | None => Raise NameError
  end.

(** [action or code]: [code] is read only when [action] is false. *)
Definition action_or_code (l : locals) : result (option string) :=
  if Py.truthy (action l) then ret (action l) else lookup_code l.

(** The PING branch of [_parse]. *)
Definition ping_branch (t : list string) : result locals :=
  msg <- Py.index t 0 ;;
  ret (mkLocals None None None None (Some "PING") None (Some msg)).

(** The assignments of the other branch up to and including the first
    [getMsg] call. *)
Definition general_extraction (t : list string) : result locals :=
  b <- isServerMessage t ;;
  sua <- (if b then
            server <- getServer t ;;
            ret (Some server, None, None)
          else
            n <- getNickname t ;;
            u <- getUser t ;;
            h <- getHostname t ;;
            action <- getAction t ;;
            ret (None, Some (strippedNickname n, u, h), Some action)) ;;
  let '(server, user, action) := sua in
  to_user <- (if opt_is action "NOTICE" || opt_is action "PRIVMSG" then
                b' <- isServerMessage t ;; ret (negb b')
              else ret false) ;;
  recipient <- (if to_user then r <- getRecipient t ;; ret (Some r)
                else ret None) ;;
  code <- getIRCCode t ;;
  channel <- getChannel t ;;
  msg <- getMsg t code action ;;
  ret (mkLocals server channel recipient user action (Some code) msg).

(** The two command-specific rebindings that follow. *)
Definition overrides (t : list string) (l : locals) : result locals :=
  let msg' := if opt_is (action l) "PART" then channel l else msg l in
  channel' <- (if opt_is (action l) "JOIN" then
                 c <- lookup_code l ;; getMsg t c (action l)
               else ret (channel l)) ;;
  ret (mkLocals (server l) channel' (recipient l) (user l) (action l)
         (code l) msg').

Definition _parse_locals (s : string) : result locals :=
  let t := tokenize s in
  if Py.startswith "PING" s then ping_branch t
  else l <- general_extraction t ;; overrides t l.

Definition _parse (s : string) (output : string) : result output_value :=
  l <- _parse_locals s ;;
  if String.eqb output "dict" || String.eqb output "dictionary" then
    ty <- action_or_code l ;;
    ret (OutDict [("server", of_str (server l));
                  ("channel", of_str (channel l));
                  ("recipient", of_str (recipient l));
                  ("user", of_user (user l));
                  ("type", of_str ty);
                  ("msg", of_str (msg l))])
  else if String.eqb output "object" then
    ty <- action_or_code l ;;
    ret (getOutputObject [("server", of_str (server l));
                          ("channel", of_str (channel l));
                          ("recipient", of_str (recipient l));
                          ("user", of_user (user l));
                          ("type", of_str ty);
                          ("msg", of_str (msg l))])
  else if String.eqb output "list" then
    ty <- action_or_code l ;;
    ret (OutList [of_str (server l); of_str (channel l);
                  of_str (recipient l); of_user (user l);
                  of_str ty; of_str (msg l)])
  else
    ty <- action_or_code l ;;
    ret (OutTuple [of_str (server l); of_str (channel l);
                   of_str (recipient l); of_user (user l);
                   of_str ty; of_str (msg l)]).

Definition parse (s : string) (output : string) : result output_value :=
  match _parse s output with
  | Raise IndexError =>
      if String.eqb output "dict" || String.eqb output "dictionary" then
        ret (OutDict [("server", VNone); ("channel", VNone);
                      ("recipient", VNone); ("user", VNone);
                      ("type", VNone); ("msg", VNone)])
      else if String.eqb output "object" then
        ret (getOutputObject [("server", VNone); ("channel", VNone);
                              ("recipient", VNone); ("user", VNone);
                              ("type", VNone); ("msg", VNone)])
      else if String.eqb output "list" then
        ret (OutList [VNone; VNone; VNone; VNone; VNone; VNone])
      else
        ret (OutTuple [VNone; VNone; VNone; VNone; VNone; VNone])
  | r => r
  end.

(** ** The decoded message and its three views *)

Module ParsedMessage.

Record t : Type := mk {
  server : option string;
  channel : option string;
  recipient : option string;
  user : option (string * string * string);
  type : option string;
  msg : option string
}.

Definition absent : t := mk None None None None None None.

End ParsedMessage.

Definition keys : list string :=
  ["server"; "channel"; "recipient"; "user"; "type"; "msg"].

(** The fixed-order sequence view. *)
Definition to_sequence (m : ParsedMessage.t) : list value :=
  [of_str (ParsedMessage.server m); of_str (ParsedMessage.channel m);
   of_str (ParsedMessage.recipient m); of_user (ParsedMessage.user m);
   of_str (ParsedMessage.type m); of_str (ParsedMessage.msg m)].

(** The key-to-value view; the record view binds the same pairs as
    attributes. *)
Definition to_mapping (m : ParsedMessage.t) : list (string * value) :=
  combine keys (to_sequence m).

(** The value a mode flag selects for a message. *)
Definition render (output : string) (m : ParsedMessage.t) : output_value :=
  if String.eqb output "dict" || String.eqb output "dictionary" then
    OutDict (to_mapping m)
  else if String.eqb output "object" then OutObject (to_mapping m)
  else if String.eqb output "list" then OutList (to_sequence m)
  else OutTuple (to_sequence m).

Definition str_of (v : value) : option (option string) :=
  match v with
  | VNone => Some None
  | VStr s => Some (Some s)
  | VTuple _ => None
  end.

Definition user_of (v : value) : option (option (string * string * string)) :=
  match v with
  | VNone => Some None
  | VTuple [n; u; h] => Some (Some (n, u, h))
  | _ => None
  end.

(** Reading a message back from the sequence view. *)
Definition of_sequence (l : list value) : option ParsedMessage.t :=
  match l with
  | [s; c; r; u; ty; m] =>
      match str_of s, str_of c, str_of r, user_of u, str_of ty, str_of m with
      | Some s, Some c, Some r, Some u, Some ty, Some m =>
          Some (ParsedMessage.mk s c r u ty m)
      | _, _, _, _, _, _ => None
      end
  | _ => None
  end.

Fixpoint lookup (k : string) (d : list (string * value)) : option value :=
  match d with
  | [] => None
  | (k', v) :: r => if String.eqb k' k then Some v else lookup k r
  end.

Fixpoint lookup_all (ks : list string) (d : list (string * value))
  : option (list value) :=
  match ks with
  | [] => Some []
  | k :: r =>
      match lookup k d, lookup_all r d with
      | Some v, Some vs => Some (v :: vs)
      | _, _ => None
      end
  end.

(** Reading a message back from the mapping view or from the attributes
    of the record view: the six keys are looked up by name. *)
Definition of_mapping (d : list (string * value)) : option ParsedMessage.t :=
  if length d =? 6 then
    match lookup_all keys d with
    | Some l => of_sequence l
    | None => None
    end
  else None.

(** The message an output value carries, whatever its shape. *)
Definition fields_of (v : output_value) : option ParsedMessage.t :=
  match v with
  | OutTuple l => of_sequence l
  | OutList l => of_sequence l
  | OutDict d => of_mapping d
  | OutObject attrs => of_mapping attrs
  end.

(** The message held by the locals of [_parse] at its [return], given
    the value [ty] of [action or code]. *)
Definition message_of (l : locals) (ty : option string) : ParsedMessage.t :=
  ParsedMessage.mk (server l) (channel l) (recipient l) (user l) ty (msg l).

(** The message [parse] returns, before a shape is chosen for it: the
    one at the [return] of [_parse], or the absent one when [_parse]
    raised. *)
Definition decode (s : string) : ParsedMessage.t :=
  match (l <- _parse_locals s ;;
         ty <- action_or_code l ;;
         ret (message_of l ty)) with
  | Normal m => m
  | Raise _ => ParsedMessage.absent
  end.

(** ** The payload policy as the specification words it *)

Definition msg_policy (tokens : list string) (code action : option string)
  : option string :=
  match tokens with
  | [] => None
  | first :: rest =>
      match rest with
      | _ :: _ => Some (Py.join ":" rest)
      | [] =>
          if opt_is code "333" then
            Some (Py.join " " (skipn 4 (Py.words first)))
          else if opt_is action "MODE" then
            Some (Py.join " " (skipn 3 (Py.words first)))
          else None
      end
  end.

(** ** Text around the first occurrence of a character *)

Fixpoint after_first (c : ascii) (s : string) : option string :=
  match s with
  | EmptyString => None
  | String a r => if Ascii.eqb a c then Some r else after_first c r
  end.

(** No ['@'] stands after the first ['!'] of [s]. *)
Definition no_at_after_bang (s : string) : bool :=
  match after_first "!" s with
  | Some r => negb (Py.contains "@" r)
  | None => true
  end.

Fixpoint no_space (s : string) : bool :=
  match s with
  | EmptyString => true
  | String a r => negb (Py.isspace a) && no_space r
  end.

(** A name part of a prefix: not empty, and free of [':'], ['!'], ['@']
    and whitespace. *)
Fixpoint plain_chars (s : string) : bool :=
  match s with
  | EmptyString => true
  | String a r =>
      negb (Ascii.eqb a ":") && negb (Ascii.eqb a "!")
      && negb (Ascii.eqb a "@") && negb (Py.isspace a) && plain_chars r
  end.

Definition name_part (s : string) : bool :=
  negb (String.eqb s EmptyString) && plain_chars s.

(** The line [:nick!user@host tail]. *)
Definition user_line (nick usr host tail : string) : string :=
  ":" ++ nick ++ "!" ++ usr ++ "@" ++ host ++ " " ++ tail.

(** The first token of such a line, [x] being the part of [tail] before
    its first colon. *)
Definition first_token (nick usr host x : string) : string :=
  nick ++ String "!" (usr ++ String "@" (host ++ String " " x)).

(** The words of [tail] that stand before its first [':']. *)
Definition command_words (tail : string) : list string :=
  Py.words (fst (Py.pieces ":" tail)).

(** A command word is there and, when it is NOTICE or PRIVMSG, so is a
    target word after it. *)
Definition has_command (tail : string) : bool :=
  match command_words tail with
  | [] => false
  | cmd :: ws =>
      if String.eqb cmd "NOTICE" || String.eqb cmd "PRIVMSG" then
        match ws with [] => false | _ :: _ => true end
      else true
  end.

(** ** The entry point and the equality of records *)

(** [main], with [sys.argv] as its argument: the value it hands to
    [print].  The line is decoded by [_parse], not by the wrapper. *)
Definition main (argv : list string) : result output_value :=
  _parse (Py.join " " (skipn 1 argv)) "dict".

Fixpoint strings_eqb (a b : list string) : bool :=
  match a, b with
  | [], [] => true
  | x :: a', y :: b' => String.eqb x y && strings_eqb a' b'
  | _, _ => false
  end.

(** [a == b] on the values a field can hold. *)
Definition value_eqb (a b : value) : bool :=
  match a, b with
  | VNone, VNone => true
  | VStr x, VStr y => String.eqb x y
  | VTuple x, VTuple y => strings_eqb x y
  | _, _ => false
  end.

(** [self.k == other.k]; [None] stands for the [AttributeError] of an
    instance that lacks the attribute. *)
Definition attr_eq (self other : list (string * value)) (k : string)
  : option bool :=
  match lookup k self, lookup k other with
  | Some a, Some b => Some (value_eqb a b)
  | _, _ => None
  end.

(** [a and b] on comparisons: [b] is evaluated only when [a] is true. *)
Definition and_then (a b : option bool) : option bool :=
  match a with
  | Some true => b
  | Some false => Some false
  | None => None
  end.

(** [ParseOutput.__eq__] on the attribute tables of two instances. *)
Definition ParseOutput_eq (self other : list (string * value)) : option bool :=
  and_then (attr_eq self other "server")
    (and_then (attr_eq self other "channel")
       (and_then (attr_eq self other "recipient")
          (and_then (attr_eq self other "user")
             (and_then (attr_eq self other "type")
                (attr_eq self other "msg"))))).

(** The number of occurrences of a character. *)
Fixpoint count_char (c : ascii) (s : string) : nat :=
  match s with
  | EmptyString => 0
  | String a r => (if Ascii.eqb a c then 1 else 0) + count_char c r
  end.

(** The string is an integer literal for [int]. *)
Definition is_int (c : string) : bool :=
  match Py.int c with
  | Normal _ => true
  | Raise _ => false
  end.

(** A word as [split()] yields them: not empty and free of whitespace. *)
Definition is_word (w : string) : bool :=
  negb (String.eqb w EmptyString) && no_space w.

(** What holds of a word of [s]: it is not empty, has no whitespace, and
    lacks every character that [s] lacks. *)
Definition word_of (s w : string) : Prop :=
  is_word w = true /\
  forall d, Py.contains d s = false -> Py.contains d w = false.

(** The locals of a server-originated line. *)
Definition server_locals (l : locals) (w : string) : Prop :=
  Py.contains "!" w = false /\ server l = Some w /\ user l = None /\
  action l = None /\ recipient l = None.

(** The locals of a user-originated line whose first token has the words
    [w :: ws]. *)
Definition user_locals (t : list string) (l : locals) (w : string)
  (ws : list string) : Prop :=
  Py.contains "!" w = true /\ server l = None /\
  exists n u h a ws',
    getNickname t = Normal n /\ getUser t = Normal u /\
    getHostname t = Normal h /\
    user l = Some (strippedNickname n, u, h) /\
    ws = a :: ws' /\ action l = Some a /\
    recipient l
    = (if String.eqb a "NOTICE" || String.eqb a "PRIVMSG" then nth_error ws' 0
       else None) /\
    (String.eqb a "NOTICE" || String.eqb a "PRIVMSG" = true -> ws' <> []).

(** A computation that raises nothing but [IndexError]. *)
Definition index_only {A : Type} (r : result A) : Prop :=
  forall e, r = Raise e -> e = IndexError.

(** * Properties *)

Example ex_topic :
  parse ":irc.codetalk.io 332 Innocence #lobby :Let's all have fun" "tuple"
  = Normal (OutTuple [VStr "irc.codetalk.io"; VStr "#lobby"; VNone; VNone;
                      VStr "332"; VStr "Let's all have fun"]).
Proof. vm_compute. reflexivity. Qed.

Example ex_nick :
  parse ":Tehnix!Tehnix@ghost-EC31B3C1.rdns.scalabledns.com NICK :BlaBliBlu" "dict"
  = Normal (OutDict [("server", VNone); ("channel", VNone);
                     ("recipient", VNone);
                     ("user", VTuple ["Tehnix"; "Tehnix";
                                      "ghost-EC31B3C1.rdns.scalabledns.com"]);
                     ("type", VStr "NICK"); ("msg", VStr "BlaBliBlu")]).
Proof. vm_compute. reflexivity. Qed.

Example ex_join :
  parse ":nick!u@h JOIN :#newchan" "list"
  = Normal (OutList [VNone; VStr "#newchan"; VNone; VTuple ["nick"; "u"; "h"];
                     VStr "JOIN"; VStr "#newchan"]).
Proof. vm_compute. reflexivity. Qed.

(** ** Which exceptions can be raised *)

Lemma index_only_ret {A : Type} (a : A) : index_only (ret a).
Proof. intros e H. discriminate H. Qed.

Lemma index_only_index {A : Type} (l : list A) (n : nat) :
  index_only (Py.index l n).
Proof.
  intros e. unfold Py.index. destruct (nth_error l n); intros H.
  - discriminate H.
  - now inversion H.
Qed.

Lemma index_only_bind {A B : Type} (m : result A) (k : A -> result B) :
  index_only m -> (forall a, m = Normal a -> index_only (k a)) ->
  index_only (bind m k).
Proof.
  intros Hm Hk e. destruct m as [a | e']; simpl.
  - apply (Hk a eq_refl).
  - intros H. inversion H; subst. now apply Hm.
Qed.

Create HintDb safe.

#[local] Hint Resolve index_only_ret index_only_index : safe.

Ltac safe_step :=
  repeat match goal with
  | |- index_only (ret _) => apply index_only_ret
  | |- index_only (Py.index _ _) => apply index_only_index
  | |- index_only (bind _ _) => apply index_only_bind; [ | intros ? _ ]
  | |- index_only (if ?b then _ else _) => destruct b
  | |- index_only (let '(_, _) := ?p in _) => destruct p
  | |- index_only _ => solve [ auto with safe ]
  end.

Lemma int_raises_value_error (c : string) (e : exn) :
  Py.int c = Raise e -> e = ValueError.
Proof.
  unfold Py.int.
  destruct (match c with
            | String "-" r => (true, r)
            | String "+" r => (false, r)
            | _ => (false, c)
            end) as [neg body].
  destruct (Py.digits false 0%Z body); intros H.
  - discriminate H.
  - now inversion H.
Qed.

Lemma index_only_getNickname t : index_only (getNickname t).
Proof. unfold getNickname. safe_step. Qed.

Lemma index_only_getHostname t : index_only (getHostname t).
Proof. unfold getHostname. safe_step. Qed.

Lemma index_only_getUser t : index_only (getUser t).
Proof. unfold getUser. safe_step. Qed.

Lemma index_only_getChannel t : index_only (getChannel t).
Proof. unfold getChannel. safe_step. Qed.

Lemma index_only_getRecipient t : index_only (getRecipient t).
Proof. unfold getRecipient. safe_step. Qed.

Lemma index_only_getServer t : index_only (getServer t).
Proof. unfold getServer. safe_step. Qed.

Lemma index_only_getAction t : index_only (getAction t).
Proof. unfold getAction. safe_step. Qed.

Lemma index_only_isServerMessage t : index_only (isServerMessage t).
Proof. unfold isServerMessage. safe_step. Qed.

Lemma index_only_getIRCCode t : index_only (getIRCCode t).
Proof.
  unfold getIRCCode. safe_step.
  match goal with |- index_only (match Py.int ?c with _ => _ end) =>
    destruct (Py.int c) as [z | e] eqn:E
  end.
  - apply index_only_ret.
  - apply int_raises_value_error in E. subst e. apply index_only_ret.
Qed.

Lemma index_only_getMsg t c a : index_only (getMsg t c a).
Proof. unfold getMsg. safe_step. Qed.

#[local] Hint Resolve index_only_getNickname index_only_getHostname
  index_only_getUser index_only_getChannel index_only_getRecipient
  index_only_getServer index_only_getAction index_only_isServerMessage
  index_only_getIRCCode index_only_getMsg : safe.

Lemma index_only_ping_branch t : index_only (ping_branch t).
Proof. unfold ping_branch. safe_step. Qed.

Lemma index_only_general_extraction t : index_only (general_extraction t).
Proof. unfold general_extraction. safe_step. Qed.

(** The locals of the general branch always have [code] bound. *)
Lemma general_extraction_code t l :
  general_extraction t = Normal l -> exists c, code l = Some c.
Proof.
  unfold general_extraction. intros H.
  repeat match type of H with
  | bind ?m _ = Normal _ => destruct m; simpl in H; [ | discriminate H ]
  | (let '(_, _) := ?p in _) = Normal _ => destruct p
  end.
  inversion H. simpl. eauto.
Qed.

Lemma index_only_overrides t l :
  (exists c, code l = Some c) -> index_only (overrides t l).
Proof.
  intros [c Hc]. unfold overrides, lookup_code. rewrite Hc.
  safe_step; auto with safe.
Qed.

Lemma overrides_code t l l' :
  overrides t l = Normal l' -> code l' = code l /\ action l' = action l.
Proof.
  unfold overrides. intros H.
  destruct (if opt_is (action l) "JOIN" then _ else _); simpl in H;
    [ | discriminate H ].
  inversion H. simpl. auto.
Qed.

Lemma index_only__parse_locals s : index_only (_parse_locals s).
Proof.
  unfold _parse_locals. destruct (Py.startswith "PING" s).
  - apply index_only_ping_branch.
  - apply index_only_bind.
    + apply index_only_general_extraction.
    + intros l Hl. apply index_only_overrides.
      now apply general_extraction_code with (t := tokenize s).
Qed.

(** At the [return] of [_parse], [action or code] has a value: [code]
    is unbound only on the PING branch, where [action] is true. *)
Lemma action_or_code_defined s l :
  _parse_locals s = Normal l -> exists ty, action_or_code l = Normal ty.
Proof.
  unfold _parse_locals. destruct (Py.startswith "PING" s).
  - unfold ping_branch. destruct (Py.index (tokenize s) 0); simpl;
      [ | discriminate ].
    intros H. inversion H. unfold action_or_code. simpl. eauto.
  - destruct (general_extraction (tokenize s)) as [l0 | ] eqn:E; simpl;
      [ | discriminate ].
    intros H. destruct (general_extraction_code _ _ E) as [c Hc].
    destruct (overrides_code _ _ _ H) as [H1 H2].
    unfold action_or_code, lookup_code. rewrite H1, Hc.
    destruct (Py.truthy (action l)); eauto.
Qed.

(** ** The shapes of the returned value *)

Lemma getOutputObject_mapping (m : ParsedMessage.t) :
  getOutputObject (to_mapping m) = OutObject (to_mapping m).
Proof. reflexivity. Qed.

Lemma _parse_render s output l ty :
  _parse_locals s = Normal l -> action_or_code l = Normal ty ->
  _parse s output = Normal (render output (message_of l ty)).
Proof.
  intros Hl Hty. unfold _parse, render. rewrite Hl. simpl.
  destruct (String.eqb output "dict" || String.eqb output "dictionary");
    [ now rewrite Hty | ].
  destruct (String.eqb output "object"); [ now rewrite Hty | ].
  destruct (String.eqb output "list"); now rewrite Hty.
Qed.

Lemma _parse_raise s output e :
  _parse_locals s = Raise e -> _parse s output = Raise e.
Proof. intros H. unfold _parse. now rewrite H. Qed.

Lemma fallback_render output :
  (if String.eqb output "dict" || String.eqb output "dictionary" then
     ret (OutDict [("server", VNone); ("channel", VNone);
                   ("recipient", VNone); ("user", VNone);
                   ("type", VNone); ("msg", VNone)])
   else if String.eqb output "object" then
     ret (getOutputObject [("server", VNone); ("channel", VNone);
                           ("recipient", VNone); ("user", VNone);
                           ("type", VNone); ("msg", VNone)])
   else if String.eqb output "list" then
     ret (OutList [VNone; VNone; VNone; VNone; VNone; VNone])
   else
     ret (OutTuple [VNone; VNone; VNone; VNone; VNone; VNone]))
  = Normal (render output ParsedMessage.absent).
Proof.
  unfold render.
  destruct (String.eqb output "dict" || String.eqb output "dictionary");
    [ reflexivity | ].
  destruct (String.eqb output "object"); [ reflexivity | ].
  destruct (String.eqb output "list"); reflexivity.
Qed.

(** [parse] returns the decoded message in the shape asked for. *)
Lemma parse_decode s output :
  parse s output = Normal (render output (decode s)).
Proof.
  unfold parse, decode.
  destruct (_parse_locals s) as [l | e] eqn:El.
  - destruct (action_or_code_defined _ _ El) as [ty Hty].
    rewrite (_parse_render _ output _ _ El Hty). simpl. now rewrite Hty.
  - rewrite (_parse_raise _ output _ El). simpl.
    rewrite (index_only__parse_locals s e El). apply fallback_render.
Qed.

Lemma decode_raise s e : _parse_locals s = Raise e -> decode s = ParsedMessage.absent.
Proof. intros H. unfold decode. now rewrite H. Qed.

Lemma decode_normal s l ty :
  _parse_locals s = Normal l -> action_or_code l = Normal ty ->
  decode s = message_of l ty.
Proof. intros H1 H2. unfold decode. rewrite H1. simpl. now rewrite H2. Qed.

Lemma of_sequence_to_sequence m : of_sequence (to_sequence m) = Some m.
Proof.
  destruct m as [s c r u ty ms]. unfold to_sequence, of_sequence. simpl.
  destruct s, c, r, u as [[[n us] h] | ], ty, ms; reflexivity.
Qed.

Lemma of_mapping_to_mapping m : of_mapping (to_mapping m) = Some m.
Proof.
  unfold of_mapping. simpl. apply of_sequence_to_sequence.
Qed.

Lemma fields_of_render output m : fields_of (render output m) = Some m.
Proof.
  unfold render.
  destruct (String.eqb output "dict" || String.eqb output "dictionary");
    [ apply of_mapping_to_mapping | ].
  destruct (String.eqb output "object"); [ apply of_mapping_to_mapping | ].
  destruct (String.eqb output "list"); apply of_sequence_to_sequence.
Qed.

(** ** Falling back to the absent message *)

(** C1: for every input string and every output mode [parse] returns a
    value and raises nothing; and whenever [_parse] raises [IndexError],
    the value returned is the requested shape of the message whose six
    fields are all absent. *)
Theorem parse_never_raises (s output : string) :
  (exists v, parse s output = Normal v) /\
  (_parse s output = Raise IndexError ->
   parse s output = Normal (render output ParsedMessage.absent) /\
   fields_of (render output ParsedMessage.absent)
   = Some (ParsedMessage.mk None None None None None None)).
Proof.
  split.
  - eexists. apply parse_decode.
  - intros H. split; [ | apply fields_of_render ].
    unfold parse. rewrite H. apply fallback_render.
Qed.

Lemma parse_never_raises_witness :
  _parse "nick" "dict" = Raise IndexError /\
  parse "nick" "dict"
  = Normal (OutDict [("server", VNone); ("channel", VNone);
                     ("recipient", VNone); ("user", VNone);
                     ("type", VNone); ("msg", VNone)]).
Proof.
  split; [ reflexivity | ].
  exact (proj1 (proj2 (parse_never_raises "nick" "dict") eq_refl)).
Defined.

(** ** Exclusive origin *)

Lemma ping_branch_origin t l :
  ping_branch t = Normal l -> server l = None /\ user l = None.
Proof.
  unfold ping_branch. destruct (Py.index t 0); simpl; [ | discriminate ].
  intros H. inversion H. auto.
Qed.

Lemma general_extraction_origin t l :
  general_extraction t = Normal l -> server l = None \/ user l = None.
Proof.
  unfold general_extraction. intros H.
  destruct (isServerMessage t) as [b | ]; simpl in H; [ | discriminate H ].
  destruct b.
  - destruct (getServer t); simpl in H; [ | discriminate H ].
    repeat match type of H with
    | bind ?m _ = Normal _ => destruct m; simpl in H; [ | discriminate H ]
    end.
    inversion H. auto.
  - destruct (getNickname t); simpl in H; [ | discriminate H ].
    destruct (getUser t); simpl in H; [ | discriminate H ].
    destruct (getHostname t); simpl in H; [ | discriminate H ].
    destruct (getAction t); simpl in H; [ | discriminate H ].
    repeat match type of H with
    | bind ?m _ = Normal _ => destruct m; simpl in H; [ | discriminate H ]
    end.
    inversion H. auto.
Qed.

Lemma overrides_origin t l l' :
  overrides t l = Normal l' -> server l' = server l /\ user l' = user l.
Proof.
  unfold overrides. intros H.
  destruct (if opt_is (action l) "JOIN" then _ else _); simpl in H;
    [ | discriminate H ].
  inversion H. simpl. auto.
Qed.

(** C2: for every input string and every output mode, the message that
    [parse] returns has its server field absent or its user field absent:
    the two are never both set. *)
Theorem server_user_exclusive (s output : string) :
  exists v m,
    parse s output = Normal v /\ fields_of v = Some m /\
    (ParsedMessage.server m = None \/ ParsedMessage.user m = None).
Proof.
  exists (render output (decode s)), (decode s).
  split; [ apply parse_decode | ]. split; [ apply fields_of_render | ].
  unfold decode. destruct (_parse_locals s) as [l | e] eqn:El; simpl; auto.
  destruct (action_or_code l) as [ty | e]; simpl; auto.
  revert El. unfold _parse_locals.
  destruct (Py.startswith "PING" s).
  - intros H. apply ping_branch_origin in H. tauto.
  - destruct (general_extraction (tokenize s)) as [l0 | ] eqn:E0; simpl;
      [ | discriminate ].
    intros H. apply overrides_origin in H. destruct H as [H1 H2].
    rewrite H1, H2. now apply general_extraction_origin with (t := tokenize s).
Qed.

(** ** Cutting strings *)

Lemma pieces_eta c s : Py.pieces c s = (fst (Py.pieces c s), snd (Py.pieces c s)).
Proof. apply surjective_pairing. Qed.

Lemma split_pieces c s :
  Py.split c s = fst (Py.pieces c s) :: snd (Py.pieces c s).
Proof. unfold Py.split. now destruct (Py.pieces c s). Qed.

Lemma pieces_cons c a r :
  Py.pieces c (String a r)
  = if Ascii.eqb a c then (EmptyString, Py.split c r)
    else (String a (fst (Py.pieces c r)), snd (Py.pieces c r)).
Proof. simpl. unfold Py.split. now destruct (Py.pieces c r). Qed.

Lemma tokenize_pieces s : tokenize s = snd (Py.pieces ":" s).
Proof.
  unfold tokenize. rewrite split_pieces.
  destruct (snd (Py.pieces ":" s)); reflexivity.
Qed.

Lemma pieces_after_first c s :
  snd (Py.pieces c s)
  = match after_first c s with
    | Some r => Py.split c r
    | None => []
    end.
Proof.
  induction s as [ | a r IH ]; [ reflexivity | ].
  rewrite pieces_cons. simpl after_first.
  destruct (Ascii.eqb a c); [ reflexivity | exact IH ].
Qed.

(** The tokens are the pieces of the text that follows the first colon. *)
Lemma tokenize_after_first s :
  tokenize s
  = match after_first ":" s with
    | Some r => Py.split ":" r
    | None => []
    end.
Proof. rewrite tokenize_pieces. apply pieces_after_first. Qed.

Lemma after_first_contains c s :
  Py.contains c s = match after_first c s with Some _ => true | None => false end.
Proof.
  induction s as [ | a r IH ]; [ reflexivity | ].
  simpl. destruct (Ascii.eqb a c); [ reflexivity | exact IH ].
Qed.

Lemma tokenize_no_colon s : Py.contains ":" s = false -> tokenize s = [].
Proof.
  rewrite tokenize_after_first, after_first_contains.
  destruct (after_first ":" s); [ discriminate | reflexivity ].
Qed.

Lemma tokenize_colon s :
  Py.contains ":" s = true -> exists t0 rest, tokenize s = t0 :: rest.
Proof.
  rewrite tokenize_after_first, after_first_contains.
  destruct (after_first ":" s) as [ r | ]; [ intros _ | discriminate ].
  rewrite split_pieces. eauto.
Qed.

Lemma pieces_app c a b :
  Py.contains c a = false ->
  Py.pieces c (a ++ b) = ((a ++ fst (Py.pieces c b))%string, snd (Py.pieces c b)).
Proof.
  induction a as [ | x a IH ]; simpl String.append.
  - intros _. apply pieces_eta.
  - simpl Py.contains. intros H. apply orb_false_elim in H. destruct H as [Hx Ha].
    rewrite pieces_cons, Hx, (IH Ha). reflexivity.
Qed.

Lemma pieces_none c a : Py.contains c a = false -> Py.pieces c a = (a, []).
Proof.
  induction a as [ | x a IH ]; [ reflexivity | ].
  simpl Py.contains. intros H. apply orb_false_elim in H. destruct H as [Hx Ha].
  rewrite pieces_cons, Hx, (IH Ha). reflexivity.
Qed.

Lemma contains_fst_pieces c d s :
  Py.contains d s = false -> Py.contains d (fst (Py.pieces c s)) = false.
Proof.
  induction s as [ | a r IH ]; [ reflexivity | ].
  intros H. simpl in H. apply orb_false_elim in H. destruct H as [Hx Ha].
  rewrite pieces_cons. destruct (Ascii.eqb a c); [ reflexivity | ].
  simpl. now rewrite Hx, (IH Ha).
Qed.

Lemma contains_app c a b :
  Py.contains c (a ++ b) = Py.contains c a || Py.contains c b.
Proof.
  induction a as [ | x a IH ]; [ reflexivity | ].
  simpl. now rewrite IH, orb_assoc.
Qed.

Lemma words_eta s : Py.words s = Py.cons_word (fst (Py.words_from s)) (snd (Py.words_from s)).
Proof. unfold Py.words. now destruct (Py.words_from s). Qed.

Lemma words_from_cons a r :
  Py.words_from (String a r)
  = if Py.isspace a then (EmptyString, Py.words r)
    else (String a (fst (Py.words_from r)), snd (Py.words_from r)).
Proof. simpl. unfold Py.words. now destruct (Py.words_from r). Qed.

Lemma words_from_app a b :
  no_space a = true ->
  Py.words_from (a ++ b)
  = ((a ++ fst (Py.words_from b))%string, snd (Py.words_from b)).
Proof.
  induction a as [ | x a IH ]; simpl String.append.
  - intros _. apply surjective_pairing.
  - simpl no_space. intros H. apply andb_prop in H. destruct H as [Hx Ha].
    apply negb_true_iff in Hx.
    rewrite words_from_cons, Hx, (IH Ha). reflexivity.
Qed.

Lemma append_empty_r (a : string) : (a ++ EmptyString)%string = a.
Proof. induction a as [ | x a IH ]; simpl; [ | rewrite IH ]; reflexivity. Qed.

(** A word followed by a space is the first word of the text. *)
Lemma words_word_space w r :
  no_space w = true -> w <> EmptyString ->
  Py.words (w ++ String " " r) = w :: Py.words r.
Proof.
  intros Hw Hne. rewrite words_eta, (words_from_app _ _ Hw), words_from_cons.
  change (Py.isspace " ") with true. simpl fst. simpl snd.
  rewrite append_empty_r. destruct w; [ now elim Hne | reflexivity ].
Qed.

Lemma no_space_app a b : no_space (a ++ b) = no_space a && no_space b.
Proof.
  induction a as [ | x a IH ]; [ reflexivity | ].
  simpl. now rewrite IH, andb_assoc.
Qed.

Lemma plain_chars_spec s :
  plain_chars s = true ->
  Py.contains ":" s = false /\ Py.contains "!" s = false /\
  Py.contains "@" s = false /\ no_space s = true.
Proof.
  induction s as [ | a r IH ]; [ simpl; auto | ].
  simpl. intros H.
  apply andb_prop in H. destruct H as [H Hr].
  apply andb_prop in H. destruct H as [H Hs].
  apply andb_prop in H. destruct H as [H Ha].
  apply andb_prop in H. destruct H as [Hc Hb].
  apply negb_true_iff in Hs, Ha, Hc, Hb.
  destruct (IH Hr) as (H1 & H2 & H3 & H4).
  rewrite H1, H2, H3, H4, Hs, Ha, Hc, Hb. auto.
Qed.

Lemma parse_fallback s output e :
  _parse_locals s = Raise e ->
  parse s output = Normal (render output ParsedMessage.absent).
Proof. intros H. now rewrite parse_decode, (decode_raise _ _ H). Qed.

Lemma general_extraction_nil : general_extraction [] = Raise IndexError.
Proof. reflexivity. Qed.

(** ** The PING line *)

Lemma ping_locals s :
  Py.startswith "PING" s = true -> _parse_locals s = ping_branch (tokenize s).
Proof. intros H. unfold _parse_locals. now rewrite H. Qed.

(** C3, as amended: for every input line that starts with PING and holds
    a colon, [parse] returns type PING, msg the first token (the text
    from the first colon to the next one or to the end of the line), and
    server, channel, recipient and user absent; a line that starts with
    PING and holds no colon gets the all-absent message. *)
Theorem ping_with_colon (s output : string) :
  Py.startswith "PING" s = true ->
  (Py.contains ":" s = true ->
   exists t0 rest,
     tokenize s = t0 :: rest /\
     parse s output
     = Normal (render output
                 (ParsedMessage.mk None None None None (Some "PING") (Some t0))))
  /\ (Py.contains ":" s = false ->
      parse s output = Normal (render output ParsedMessage.absent)).
Proof.
  intros Hp. split; intros Hc.
  - destruct (tokenize_colon _ Hc) as (t0 & rest & Ht).
    exists t0, rest. split; [ exact Ht | ].
    rewrite parse_decode. f_equal. f_equal.
    apply decode_normal with
      (l := mkLocals None None None None (Some "PING") None (Some t0)).
    + rewrite (ping_locals _ Hp), Ht. reflexivity.
    + reflexivity.
  - apply parse_fallback with (e := IndexError).
    rewrite (ping_locals _ Hp), (tokenize_no_colon _ Hc). reflexivity.
Qed.

Lemma ping_with_colon_witness :
  parse "PING :tungsten.libera.chat" "tuple"
  = Normal (OutTuple [VNone; VNone; VNone; VNone; VStr "PING";
                      VStr "tungsten.libera.chat"]).
Proof.
  destruct (proj1 (ping_with_colon "PING :tungsten.libera.chat" "tuple"
                     eq_refl) eq_refl) as (t0 & rest & Ht & Hv).
  rewrite Hv. vm_compute in Ht. inversion Ht. reflexivity.
Defined.

(** C3, as first stated, fails on a PING line that has no colon: the
    type of the message returned is absent, not PING. *)
Lemma ping_without_colon :
  Py.startswith "PING" "PING" = true /\
  parse "PING" "tuple"
  = Normal (OutTuple [VNone; VNone; VNone; VNone; VNone; VNone]) /\
  ~ (exists m, parse "PING" "tuple" = Normal (render "tuple" m) /\
               ParsedMessage.type m = Some "PING").
Proof.
  split; [ reflexivity | ]. split; [ reflexivity | ].
  intros (m & Hm & Hty).
  rewrite parse_decode in Hm.
  apply (f_equal (fun r => match r with
                           | Normal v => fields_of v
                           | Raise _ => None
                           end)) in Hm.
  cbv beta iota in Hm. rewrite !fields_of_render in Hm.
  inversion Hm as [Hd]. rewrite <- Hd in Hty. discriminate Hty.
Qed.

(** ** Lines without a colon *)

(** C4, as amended: for every input line that does not start with PING
    and holds no colon at any position, position 0 included, the token
    list is empty and [parse] returns the all-absent message. *)
Theorem no_colon_absent (s output : string) :
  Py.startswith "PING" s = false -> Py.contains ":" s = false ->
  tokenize s = [] /\
  parse s output = Normal (render output ParsedMessage.absent).
Proof.
  intros Hp Hc. pose proof (tokenize_no_colon _ Hc) as Ht.
  split; [ exact Ht | ].
  apply parse_fallback with (e := IndexError).
  unfold _parse_locals. rewrite Hp, Ht. reflexivity.
Qed.

Lemma no_colon_absent_witness :
  tokenize "nickname" = [] /\
  parse "nickname" "list"
  = Normal (OutList [VNone; VNone; VNone; VNone; VNone; VNone]).
Proof. exact (no_colon_absent "nickname" "list" eq_refl eq_refl). Defined.

(** C4, as first stated, fails on a line whose only colon is the leading
    one: the text after that colon is a token, and here the line decodes
    to a message with a server. *)
Lemma leading_colon_tokens :
  Py.startswith "PING" ":a b" = false /\
  Py.contains ":" "a b" = false /\
  tokenize ":a b" = ["a b"] /\
  parse ":a b" "tuple"
  = Normal (OutTuple [VStr "a"; VNone; VNone; VNone; VNone; VNone]) /\
  parse ":a b" "tuple" <> Normal (render "tuple" ParsedMessage.absent).
Proof.
  repeat split; try reflexivity. discriminate.
Qed.

(** ** The text before the first colon *)

(** C9: two input lines that do not start with PING and have the same
    text after their first colon are parsed to the same value; what
    stands before the first colon is not read. *)
Theorem prefix_before_colon_ignored (s1 s2 output : string) :
  Py.startswith "PING" s1 = false -> Py.startswith "PING" s2 = false ->
  after_first ":" s1 = after_first ":" s2 ->
  parse s1 output = parse s2 output.
Proof.
  intros H1 H2 Ha.
  assert (Ht : tokenize s1 = tokenize s2)
    by now rewrite !tokenize_after_first, Ha.
  assert (Hl : _parse_locals s1 = _parse_locals s2)
    by (unfold _parse_locals; now rewrite H1, H2, Ht).
  unfold parse, _parse. now rewrite Hl.
Qed.

Lemma prefix_before_colon_ignored_witness :
  parse "junk:irc.example.net 001 nick :hi" "tuple"
  = parse ":irc.example.net 001 nick :hi" "tuple".
Proof.
  exact (prefix_before_colon_ignored "junk:irc.example.net 001 nick :hi"
           ":irc.example.net 001 nick :hi" "tuple" eq_refl eq_refl eq_refl).
Defined.

(** ** The three views *)

(** C8: for every input string the sequence view (tuple or list), the
    mapping view and the record view that [parse] produces hold one and
    the same message; each view gives the message back, and each view is
    computed from another without parsing again. *)
Theorem views_agree (s : string) :
  exists m,
    parse s "tuple" = Normal (OutTuple (to_sequence m)) /\
    parse s "list" = Normal (OutList (to_sequence m)) /\
    parse s "dict" = Normal (OutDict (to_mapping m)) /\
    parse s "dictionary" = Normal (OutDict (to_mapping m)) /\
    parse s "object" = Normal (OutObject (to_mapping m)) /\
    of_sequence (to_sequence m) = Some m /\
    of_mapping (to_mapping m) = Some m /\
    to_mapping m = combine keys (to_sequence m) /\
    to_sequence m = map snd (to_mapping m) /\
    map fst (to_mapping m) = keys.
Proof.
  exists (decode s).
  repeat split; try apply parse_decode.
  - apply of_sequence_to_sequence.
  - apply of_mapping_to_mapping.
Qed.

(** ** The payload and the two overrides *)

Lemma getMsg_policy t c a :
  t <> [] -> getMsg t c a = Normal (msg_policy t c a).
Proof.
  destruct t as [ | t0 [ | t1 r ] ]; intros H.
  - now elim H.
  - unfold getMsg, msg_policy. simpl.
    destruct (opt_is c "333"); [ reflexivity | ].
    destruct (opt_is a "MODE"); reflexivity.
  - reflexivity.
Qed.

Lemma general_extraction_msg t l :
  general_extraction t = Normal l ->
  t <> [] /\ exists c, code l = Some c /\ msg l = msg_policy t c (action l).
Proof.
  intros H.
  assert (Ht : t <> []) by (intros ->; discriminate H).
  split; [ exact Ht | ].
  unfold general_extraction in H.
  destruct (isServerMessage t) as [ b | ]; simpl in H; [ | discriminate H ].
  destruct (if b then _ else _) as [ [[sv us] ac] | ]; simpl in H;
    [ | discriminate H ].
  destruct (if opt_is ac "NOTICE" || opt_is ac "PRIVMSG" then _ else _)
    as [ tu | ]; simpl in H; [ | discriminate H ].
  destruct (if tu then _ else _) as [ rc | ]; simpl in H; [ | discriminate H ].
  destruct (getIRCCode t) as [ c | ]; simpl in H; [ | discriminate H ].
  destruct (getChannel t) as [ ch | ]; simpl in H; [ | discriminate H ].
  rewrite (getMsg_policy _ c ac Ht) in H. simpl in H.
  inversion H. simpl. eauto.
Qed.

Lemma overrides_eval t l c :
  t <> [] -> code l = Some c ->
  overrides t l
  = Normal (mkLocals (server l)
              (if opt_is (action l) "JOIN" then msg_policy t c (action l)
               else channel l)
              (recipient l) (user l) (action l) (code l)
              (if opt_is (action l) "PART" then channel l else msg l)).
Proof.
  intros Ht Hc. unfold overrides, lookup_code. rewrite Hc. simpl.
  destruct (opt_is (action l) "JOIN"); [ | reflexivity ].
  now rewrite (getMsg_policy _ c (action l) Ht).
Qed.

Lemma action_or_code_bound l c :
  code l = Some c ->
  action_or_code l = Normal (if Py.truthy (action l) then action l else c).
Proof.
  intros Hc. unfold action_or_code, lookup_code. rewrite Hc.
  now destruct (Py.truthy (action l)).
Qed.

(** What [parse] returns on a line that is not a PING line, from the
    locals at the end of the general extraction. *)
Lemma decode_general s l :
  Py.startswith "PING" s = false ->
  general_extraction (tokenize s) = Normal l ->
  exists c, code l = Some c /\
    decode s
    = ParsedMessage.mk (server l)
        (if opt_is (action l) "JOIN" then msg l else channel l)
        (recipient l) (user l)
        (if Py.truthy (action l) then action l else c)
        (if opt_is (action l) "PART" then channel l else msg l).
Proof.
  intros Hp Hl.
  destruct (general_extraction_msg _ _ Hl) as (Ht & c & Hc & Hm).
  exists c. split; [ exact Hc | ].
  rewrite Hm at 1.
  eapply eq_trans; [ eapply decode_normal | ].
  - unfold _parse_locals. rewrite Hp, Hl. simpl. apply (overrides_eval _ _ c Ht Hc).
  - apply action_or_code_bound. exact Hc.
  - reflexivity.
Qed.

(** C5, as amended: on every input that is not a PING line and on which
    the general extraction completes (no fallback to the all-absent
    message), the payload that the extraction binds to msg follows the
    first-match-wins policy: with more than one token, the tokens from
    the second on joined with colons; else with code 333, the words of
    the first token from index 4 on joined with spaces; else with action
    MODE, those from index 3 on; else absent.  Unless the action is PART,
    the msg field of the message returned by [parse] is this payload.
    [getMsg] computes the policy on every token list that is not empty. *)
Theorem msg_follows_policy (s : string) :
  Py.startswith "PING" s = false ->
  (forall c a, tokenize s <> [] ->
     getMsg (tokenize s) c a = Normal (msg_policy (tokenize s) c a)) /\
  (forall l, general_extraction (tokenize s) = Normal l ->
     exists c,
       code l = Some c /\
       msg l = msg_policy (tokenize s) c (action l) /\
       (opt_is (action l) "PART" = false ->
        forall output, exists m,
          parse s output = Normal (render output m) /\
          ParsedMessage.msg m = msg_policy (tokenize s) c (action l))).
Proof.
  intros Hp. split.
  - intros c a Ht. now apply getMsg_policy.
  - intros l Hl.
    destruct (general_extraction_msg _ _ Hl) as (Ht & c & Hc & Hm).
    exists c. split; [ exact Hc | ]. split; [ exact Hm | ].
    intros Hpart output. exists (decode s). split; [ apply parse_decode | ].
    destruct (decode_general _ _ Hp Hl) as (c' & Hc' & Hd).
    rewrite Hd. simpl. rewrite Hpart. exact Hm.
Qed.

Lemma msg_follows_policy_witness :
  exists m,
    parse ":irc.example.net 333 nick #chan setter 1700000000" "tuple"
    = Normal (render "tuple" m) /\
    ParsedMessage.msg m = Some "setter 1700000000".
Proof.
  destruct (proj2 (msg_follows_policy
                     ":irc.example.net 333 nick #chan setter 1700000000"
                     eq_refl)
              (mkLocals (Some "irc.example.net") (Some "#chan") None None None
                 (Some (Some "333")) (Some "setter 1700000000"))
              eq_refl) as (c & Hc & Hm & Hparse).
  destruct (Hparse eq_refl "tuple") as (m & Hv & Hmsg).
  exists m. split; [ exact Hv | ]. rewrite Hmsg, <- Hm. reflexivity.
Defined.

(** C5, as first stated, fails on two kinds of line that are not PING
    lines.  On [:a :b] the colon split yields two tokens, so the policy
    gives msg [b], but the first token has no second word: [getIRCCode]
    raises and the message returned is the all-absent one.  On a PART
    line the policy gives the trailing text, but the msg returned is the
    channel. *)
Lemma msg_not_always_policy :
  (Py.startswith "PING" ":a :b" = false /\
   tokenize ":a :b" = ["a "; "b"] /\
   (forall c a, msg_policy (tokenize ":a :b") c a = Some "b") /\
   parse ":a :b" "tuple"
   = Normal (OutTuple [VNone; VNone; VNone; VNone; VNone; VNone])) /\
  (Py.startswith "PING" ":nick!u@h PART #lobby :goodbye" = false /\
   general_extraction (tokenize ":nick!u@h PART #lobby :goodbye")
   = Normal (mkLocals None (Some "#lobby") None (Some ("nick", "u", "h"))
               (Some "PART") (Some None) (Some "goodbye")) /\
   msg_policy (tokenize ":nick!u@h PART #lobby :goodbye") None (Some "PART")
   = Some "goodbye" /\
   parse ":nick!u@h PART #lobby :goodbye" "tuple"
   = Normal (OutTuple [VNone; VStr "#lobby"; VNone;
                       VTuple ["nick"; "u"; "h"]; VStr "PART";
                       VStr "#lobby"])).
Proof.
  split.
  - split; [ reflexivity | ]. split; [ reflexivity | ].
    split; [ intros c a; reflexivity | reflexivity ].
  - repeat split; reflexivity.
Qed.

(** C6: on every input that is not a PING line, once the general
    extraction is done, the msg returned is the extracted channel when
    the action is PART, and the channel returned is the payload of the
    general extraction when the action is JOIN; with any other action
    the extracted msg and channel are returned as they are. *)
Theorem part_join_overrides (s output : string) (l : locals) :
  Py.startswith "PING" s = false ->
  general_extraction (tokenize s) = Normal l ->
  exists m,
    parse s output = Normal (render output m) /\
    ParsedMessage.msg m
    = (if opt_is (action l) "PART" then channel l else msg l) /\
    ParsedMessage.channel m
    = (if opt_is (action l) "JOIN" then msg l else channel l).
Proof.
  intros Hp Hl. exists (decode s). split; [ apply parse_decode | ].
  destruct (decode_general _ _ Hp Hl) as (c & Hc & Hd).
  rewrite Hd. simpl. auto.
Qed.

Lemma part_join_overrides_witness :
  exists m,
    parse ":nick!u@h PART #lobby :goodbye" "tuple"
    = Normal (render "tuple" m) /\
    ParsedMessage.msg m = Some "#lobby" /\
    ParsedMessage.channel m = Some "#lobby".
Proof.
  exact (part_join_overrides ":nick!u@h PART #lobby :goodbye" "tuple"
           (mkLocals None (Some "#lobby") None (Some ("nick", "u", "h"))
              (Some "PART") (Some None) (Some "goodbye"))
           eq_refl eq_refl).
Defined.

(** ** A user prefix without a host *)

Lemma getHostname_no_at t0 rest :
  no_at_after_bang t0 = true ->
  exists e, getHostname (t0 :: rest) = Raise e.
Proof.
  unfold no_at_after_bang, getHostname. simpl.
  rewrite split_pieces, pieces_after_first.
  destruct (after_first "!" t0) as [ b | ]; [ | intros _; simpl; eauto ].
  intros Hb. apply negb_true_iff in Hb.
  rewrite split_pieces. simpl.
  rewrite split_pieces,
    (pieces_none "@" _ (contains_fst_pieces "!" "@" _ Hb)).
  simpl. eauto.
Qed.

(** C10: for every input that is not a PING line, whose first token has a
    first word holding ['!'], and whose first token holds no ['@'] after
    its first ['!'], [parse] returns the all-absent message. *)
Theorem malformed_user_prefix_absent
  (s output t0 w : string) (rest ws : list string) :
  Py.startswith "PING" s = false ->
  tokenize s = t0 :: rest ->
  Py.words t0 = w :: ws -> Py.contains "!" w = true ->
  no_at_after_bang t0 = true ->
  parse s output = Normal (render output ParsedMessage.absent).
Proof.
  intros Hp Ht Hw Hbang Hat.
  destruct (getHostname_no_at t0 rest Hat) as [e He].
  assert (H : exists e', _parse_locals s = Raise e').
  { unfold _parse_locals. rewrite Hp, Ht.
    unfold general_extraction, isServerMessage. simpl. rewrite Hw. simpl.
    rewrite Hbang. simpl.
    destruct (getNickname (t0 :: rest)); simpl; [ | eauto ].
    destruct (getUser (t0 :: rest)); simpl; [ | eauto ].
    rewrite He. simpl. eauto. }
  destruct H as [e' He']. now apply parse_fallback with (e := e').
Qed.

Lemma malformed_user_prefix_absent_witness :
  parse ":nick!user PRIVMSG #chan :hi" "tuple"
  = Normal (OutTuple [VNone; VNone; VNone; VNone; VNone; VNone]).
Proof.
  exact (malformed_user_prefix_absent ":nick!user PRIVMSG #chan :hi" "tuple"
           "nick!user PRIVMSG #chan " "nick!user" ["hi"] ["PRIVMSG"; "#chan"]
           eq_refl eq_refl eq_refl eq_refl eq_refl).
Defined.

(** ** The user prefix *)

Lemma index_0 {A : Type} (x : A) l : Py.index (x :: l) 0 = Normal x.
Proof. reflexivity. Qed.

Lemma index_1 {A : Type} (x y : A) l : Py.index (x :: y :: l) 1 = Normal y.
Proof. reflexivity. Qed.

Lemma fst_pieces_app c a b :
  Py.contains c a = false ->
  fst (Py.pieces c (a ++ b)) = (a ++ fst (Py.pieces c b))%string.
Proof. intros H. now rewrite (pieces_app _ _ _ H). Qed.

Lemma snd_pieces_app c a b :
  Py.contains c a = false ->
  snd (Py.pieces c (a ++ b)) = snd (Py.pieces c b).
Proof. intros H. now rewrite (pieces_app _ _ _ H). Qed.

Lemma split_app_sep c a b :
  Py.contains c a = false ->
  Py.split c (a ++ String c b) = a :: Py.split c b.
Proof.
  intros H. rewrite split_pieces, (pieces_app _ _ _ H), pieces_cons.
  rewrite Ascii.eqb_refl. simpl. now rewrite append_empty_r.
Qed.

Lemma append_cons_assoc (a b d : string) (c : ascii) :
  (a ++ String c (b ++ d) = (a ++ String c b) ++ d)%string.
Proof.
  induction a as [ | x a IH ]; simpl; [ reflexivity | now rewrite IH ].
Qed.

Section UserLine.

Variables nick usr host : string.
Hypothesis Hnick : name_part nick = true.
Hypothesis Husr : name_part usr = true.
Hypothesis Hhost : name_part host = true.

Lemma plain_nick : plain_chars nick = true.
Proof. apply andb_prop in Hnick. tauto. Qed.

Lemma plain_usr : plain_chars usr = true.
Proof. apply andb_prop in Husr. tauto. Qed.

Lemma plain_host : plain_chars host = true.
Proof. apply andb_prop in Hhost. tauto. Qed.

Lemma tokenize_user_line tail :
  tokenize (user_line nick usr host tail)
  = first_token nick usr host (fst (Py.pieces ":" tail)) :: snd (Py.pieces ":" tail).
Proof.
  destruct (plain_chars_spec _ plain_nick) as (Hn & _).
  destruct (plain_chars_spec _ plain_usr) as (Hu & _).
  destruct (plain_chars_spec _ plain_host) as (Hh & _).
  rewrite tokenize_pieces. unfold user_line, first_token.
  change (":" ++ ?x)%string with (String ":" x).
  rewrite pieces_cons. simpl Ascii.eqb. cbv iota. simpl snd.
  rewrite split_pieces.
  rewrite (fst_pieces_app _ _ _ Hn), (snd_pieces_app _ _ _ Hn).
  change ("!" ++ ?x)%string with (String "!" x).
  rewrite pieces_cons. simpl Ascii.eqb. cbv iota. simpl fst. simpl snd.
  rewrite (fst_pieces_app _ _ _ Hu), (snd_pieces_app _ _ _ Hu).
  change ("@" ++ ?x)%string with (String "@" x).
  rewrite pieces_cons. simpl Ascii.eqb. cbv iota. simpl fst. simpl snd.
  rewrite (fst_pieces_app _ _ _ Hh), (snd_pieces_app _ _ _ Hh).
  change (" " ++ ?x)%string with (String " " x).
  rewrite pieces_cons. simpl Ascii.eqb. cbv iota. simpl fst. simpl snd.
  reflexivity.
Qed.

Lemma words_first_token x :
  Py.words (first_token nick usr host x)
  = (nick ++ String "!" (usr ++ String "@" host))%string :: Py.words x.
Proof.
  destruct (plain_chars_spec _ plain_nick) as (_ & _ & _ & Hn).
  destruct (plain_chars_spec _ plain_usr) as (_ & _ & _ & Hu).
  destruct (plain_chars_spec _ plain_host) as (_ & _ & _ & Hh).
  unfold first_token.
  replace (nick ++ String "!" (usr ++ String "@" (host ++ String " " x)))%string
    with ((nick ++ String "!" (usr ++ String "@" host)) ++ String " " x)%string.
  - apply words_word_space.
    + rewrite no_space_app. simpl. rewrite no_space_app. simpl.
      now rewrite Hn, Hu, Hh.
    + destruct nick; discriminate.
  - now rewrite <- !append_cons_assoc.
Qed.

Lemma first_word_has_bang :
  Py.contains "!" (nick ++ String "!" (usr ++ String "@" host)) = true.
Proof. rewrite contains_app. simpl. apply orb_true_r. Qed.

Lemma getNickname_first_token x rest :
  getNickname (first_token nick usr host x :: rest) = Normal nick.
Proof.
  destruct (plain_chars_spec _ plain_nick) as (_ & Hn & _).
  unfold getNickname. rewrite index_0. cbn [bind]. unfold first_token.
  now rewrite (split_app_sep _ _ _ Hn), index_0.
Qed.

(** The text between the first and the second ['!'] of the first token. *)
Lemma bang_piece x :
  Py.index (Py.split "!" (first_token nick usr host x)) 1
  = Normal (usr ++ String "@" (host ++ String " " (fst (Py.pieces "!" x))))%string.
Proof.
  destruct (plain_chars_spec _ plain_nick) as (_ & Hn & _).
  destruct (plain_chars_spec _ plain_usr) as (_ & Hu & _).
  destruct (plain_chars_spec _ plain_host) as (_ & Hh & _).
  unfold first_token.
  rewrite (split_app_sep _ _ _ Hn), split_pieces, index_1.
  rewrite (fst_pieces_app _ _ _ Hu), pieces_cons. simpl Ascii.eqb. cbv iota.
  cbn [fst]. rewrite (fst_pieces_app _ _ _ Hh), pieces_cons.
  simpl Ascii.eqb. cbv iota. reflexivity.
Qed.

Lemma getUser_first_token x rest :
  getUser (first_token nick usr host x :: rest) = Normal usr.
Proof.
  destruct (plain_chars_spec _ plain_usr) as (_ & _ & Hu & _).
  unfold getUser. rewrite index_0. cbn [bind]. rewrite bang_piece. cbn [bind].
  now rewrite (split_app_sep _ _ _ Hu), index_0.
Qed.

Lemma getHostname_first_token x rest :
  getHostname (first_token nick usr host x :: rest) = Normal host.
Proof.
  destruct (plain_chars_spec _ plain_usr) as (_ & _ & Hu & _).
  destruct (plain_chars_spec _ plain_host) as (_ & _ & Hh & Hs).
  unfold getHostname. rewrite index_0. cbn [bind]. rewrite bang_piece.
  cbn [bind]. rewrite (split_app_sep _ _ _ Hu), split_pieces, index_1.
  cbn [bind]. rewrite (fst_pieces_app _ _ _ Hh), pieces_cons.
  simpl Ascii.eqb. cbv iota. cbn [fst].
  rewrite words_word_space, index_0; [ reflexivity | exact Hs | ].
  destruct host; discriminate.
Qed.

Lemma isServerMessage_first_token x rest :
  isServerMessage (first_token nick usr host x :: rest) = Normal false.
Proof.
  unfold isServerMessage. rewrite index_0. cbn [bind].
  rewrite words_first_token, index_0. cbn [bind].
  now rewrite first_word_has_bang.
Qed.

Lemma general_extraction_first_token x rest cmd ws :
  Py.words x = cmd :: ws ->
  (String.eqb cmd "NOTICE" || String.eqb cmd "PRIVMSG" = true -> ws <> []) ->
  exists l,
    general_extraction (first_token nick usr host x :: rest) = Normal l /\
    server l = None /\
    user l = Some (strippedNickname nick, usr, host) /\
    action l = Some cmd.
Proof.
  intros Hw Hto. set (t := first_token nick usr host x :: rest).
  assert (Hwords : Py.words (first_token nick usr host x)
                   = (nick ++ String "!" (usr ++ String "@" host))%string
                     :: cmd :: ws)
    by now rewrite words_first_token, Hw.
  assert (Hact : getAction t = Normal cmd).
  { unfold getAction, t. rewrite index_0. cbn [bind]. now rewrite Hwords. }
  assert (Hcode : exists c, getIRCCode t = Normal c).
  { unfold getIRCCode, t. rewrite index_0. cbn [bind].
    rewrite Hwords, index_1. cbn [bind].
    destruct (Py.int cmd) as [ z | e ] eqn:E; [ eauto | ].
    apply int_raises_value_error in E. subst e. eauto. }
  assert (Hchan : exists ch, getChannel t = Normal ch).
  { unfold getChannel, t. rewrite index_0. cbn [bind]. eauto. }
  assert (Hrec : String.eqb cmd "NOTICE" || String.eqb cmd "PRIVMSG" = true ->
                 exists r, getRecipient t = Normal r).
  { intros H. specialize (Hto H). unfold getRecipient, t.
    rewrite index_0. cbn [bind]. rewrite Hwords.
    destruct ws as [ | r ws' ]; [ now elim Hto | ]. exists r. reflexivity. }
  destruct Hcode as [c Hc]. destruct Hchan as [ch Hch].
  unfold general_extraction. fold t.
  unfold t at 1. rewrite isServerMessage_first_token. cbn [bind]. fold t.
  unfold t at 1. rewrite getNickname_first_token. cbn [bind]. fold t.
  unfold t at 1. rewrite getUser_first_token. cbn [bind]. fold t.
  unfold t at 1. rewrite getHostname_first_token. cbn [bind]. fold t.
  rewrite Hact. cbn [bind ret opt_is].
  destruct (String.eqb cmd "NOTICE" || String.eqb cmd "PRIVMSG") eqn:Eto.
  - destruct (Hrec eq_refl) as [r Hr].
    unfold t at 1. rewrite isServerMessage_first_token. cbn [bind ret negb].
    fold t. rewrite Hr. cbn [bind ret]. rewrite Hc. cbn [bind].
    rewrite Hch. cbn [bind].
    rewrite getMsg_policy by discriminate. cbn [bind ret].
    eexists. repeat split.
  - cbn [bind ret]. rewrite Hc. cbn [bind]. rewrite Hch. cbn [bind].
    rewrite getMsg_policy by discriminate. cbn [bind ret].
    eexists. repeat split.
Qed.

(** C7, as amended: for every line [:nick!user@host tail] whose nick,
    user and host are not empty and hold no colon, ['!'], ['@'] or
    whitespace, and whose tail has a command word before its first colon
    and, when that word is NOTICE or PRIVMSG, a further word after it,
    the user field of the message returned is the triple of the nick
    with one leading sigil removed (when the nick is longer than one
    character), the user and the host. *)
Theorem user_prefix_decomposed (tail output : string) :
  has_command tail = true ->
  exists v m,
    parse (user_line nick usr host tail) output = Normal v /\
    fields_of v = Some m /\
    ParsedMessage.user m = Some (strippedNickname nick, usr, host).
Proof.
  intros Hc.
  exists (render output (decode (user_line nick usr host tail))),
         (decode (user_line nick usr host tail)).
  split; [ apply parse_decode | ]. split; [ apply fields_of_render | ].
  unfold has_command, command_words in Hc.
  destruct (Py.words (fst (Py.pieces ":" tail))) as [ | cmd ws ] eqn:Hw;
    [ discriminate Hc | ].
  destruct (general_extraction_first_token _ (snd (Py.pieces ":" tail)) _ _ Hw)
    as (l & Hl & _ & Hu & _).
  { intros H. rewrite H in Hc. destruct ws; [ discriminate Hc | discriminate ]. }
  rewrite <- tokenize_user_line in Hl.
  destruct (decode_general (user_line nick usr host tail) l eq_refl Hl)
    as (c & _ & Hd).
  rewrite Hd. simpl. exact Hu.
Qed.

(** Without a command word, or with NOTICE or PRIVMSG and no target
    word, the same line falls back to the all-absent message. *)
Lemma user_line_without_command (tail output : string) :
  has_command tail = false ->
  parse (user_line nick usr host tail) output
  = Normal (render output ParsedMessage.absent).
Proof.
  intros Hc.
  assert (H : exists e, _parse_locals (user_line nick usr host tail) = Raise e).
  { unfold _parse_locals.
    change (Py.startswith "PING" (user_line nick usr host tail)) with false.
    cbv iota. rewrite tokenize_user_line.
    set (x := fst (Py.pieces ":" tail)). set (rest := snd (Py.pieces ":" tail)).
    unfold has_command, command_words in Hc. fold x in Hc.
    unfold general_extraction.
    rewrite isServerMessage_first_token. cbn [bind].
    rewrite getNickname_first_token. cbn [bind].
    rewrite getUser_first_token. cbn [bind].
    rewrite getHostname_first_token. cbn [bind].
    unfold getAction at 1. rewrite index_0. cbn [bind].
    rewrite words_first_token.
    destruct (Py.words x) as [ | cmd ws ] eqn:Hw.
    - simpl. eauto.
    - rewrite index_1. cbn [bind ret opt_is].
      destruct (String.eqb cmd "NOTICE" || String.eqb cmd "PRIVMSG");
        [ | discriminate Hc ].
      destruct ws; [ | discriminate Hc ].
      cbn [bind ret negb].
      unfold getRecipient. rewrite index_0. cbn [bind].
      rewrite words_first_token, Hw. simpl. eauto. }
  destruct H as [e He]. now apply parse_fallback with (e := e).
Qed.

End UserLine.

Lemma user_prefix_decomposed_witness :
  exists v m,
    parse ":~Tehnix!tehnix@ghost.example.com PRIVMSG #lobby :hello" "dict"
    = Normal v /\
    fields_of v = Some m /\
    ParsedMessage.user m = Some ("Tehnix", "tehnix", "ghost.example.com").
Proof.
  exact (user_prefix_decomposed "~Tehnix" "tehnix" "ghost.example.com"
           eq_refl eq_refl eq_refl "PRIVMSG #lobby :hello" "dict" eq_refl).
Defined.

(** C7, as first stated, fails on a PRIVMSG line that names no target:
    the third word that [getRecipient] reads is not there, so the message
    returned is the all-absent one and its user field is not the triple. *)
Lemma privmsg_without_target :
  name_part "nick" = true /\ name_part "user" = true /\
  name_part "host" = true /\
  parse (user_line "nick" "user" "host" "PRIVMSG :hi") "tuple"
  = Normal (OutTuple [VNone; VNone; VNone; VNone; VNone; VNone]) /\
  ~ (exists v m,
       parse ":nick!user@host PRIVMSG :hi" "tuple" = Normal v /\
       fields_of v = Some m /\
       ParsedMessage.user m = Some ("nick", "user", "host")).
Proof.
  repeat split; try reflexivity.
  intros (v & m & Hv & Hm & Hu).
  assert (E : parse ":nick!user@host PRIVMSG :hi" "tuple"
              = Normal (OutTuple [VNone; VNone; VNone; VNone; VNone; VNone]))
    by reflexivity.
  rewrite E in Hv. inversion Hv. subst v.
  inversion Hm. subst m. discriminate Hu.
Qed.

(** * Further properties of the decoder *)

(** ** Pieces and words *)

Lemma index_in {A : Type} (l : list A) (n : nat) (x : A) :
  Py.index l n = Normal x -> In x l.
Proof.
  unfold Py.index. destruct (nth_error l n) as [ a | ] eqn:E; [ | discriminate ].
  intros H. inversion H; subst. now apply nth_error_In with (n := n).
Qed.

(** No piece holds the separator, and a character absent from the text
    is absent from every piece. *)
Lemma pieces_free c s :
  Forall (fun p => Py.contains c p = false) (Py.split c s) /\
  forall d, Py.contains d s = false ->
            Forall (fun p => Py.contains d p = false) (Py.split c s).
Proof.
  induction s as [ | a r IH ].
  - split; [ | intros d _ ]; repeat constructor.
  - destruct IH as [IH1 IH2]. rewrite split_pieces in IH1.
    rewrite split_pieces, pieces_cons.
    destruct (Ascii.eqb a c) eqn:E; cbn [fst snd].
    + split.
      * constructor; [ reflexivity | ]. now rewrite split_pieces.
      * intros d Hd. simpl in Hd. apply orb_false_elim in Hd.
        constructor; [ reflexivity | ]. now apply IH2.
    + split.
      * inversion IH1; subst. constructor; [ | assumption ].
        simpl. now rewrite E.
      * intros d Hd. simpl in Hd. apply orb_false_elim in Hd.
        destruct Hd as [Ha Hr]. specialize (IH2 d Hr).
        rewrite split_pieces in IH2. inversion IH2; subst.
        constructor; [ | assumption ]. simpl. now rewrite Ha.
Qed.

Lemma split_piece_free c s p : In p (Py.split c s) -> Py.contains c p = false.
Proof.
  intros H. destruct (pieces_free c s) as [F _].
  rewrite Forall_forall in F. now apply F.
Qed.

Lemma split_piece_inherits c d s p :
  Py.contains d s = false -> In p (Py.split c s) -> Py.contains d p = false.
Proof.
  intros Hd H. destruct (pieces_free c s) as [_ F].
  specialize (F d Hd). rewrite Forall_forall in F. now apply F.
Qed.

Lemma token_free s t0 : In t0 (tokenize s) -> Py.contains ":" t0 = false.
Proof.
  rewrite tokenize_pieces. intros H.
  apply split_piece_free with (s := s). rewrite split_pieces. now right.
Qed.

Lemma words_from_spec s :
  (no_space (fst (Py.words_from s)) = true /\
   forall d, Py.contains d s = false ->
             Py.contains d (fst (Py.words_from s)) = false) /\
  Forall (word_of s) (snd (Py.words_from s)).
Proof.
  induction s as [ | a r IH ].
  - simpl. repeat split; auto.
  - destruct IH as [[Hw Hd] Hws].
    assert (Hup : forall ws, Forall (word_of r) ws -> Forall (word_of (String a r)) ws).
    { intros ws F. eapply Forall_impl; [ | exact F ].
      intros w [H1 H2]. split; [ exact H1 | ].
      intros d H. simpl in H. apply orb_false_elim in H. now apply H2. }
    rewrite words_from_cons. destruct (Py.isspace a) eqn:E; cbn [fst snd].
    + split; [ split; [ reflexivity | reflexivity ] | ].
      rewrite words_eta. unfold Py.cons_word.
      destruct (fst (Py.words_from r)) as [ | x w ] eqn:Ew; [ now apply Hup | ].
      constructor; [ | now apply Hup ].
      split.
      * unfold is_word. now rewrite Hw.
      * intros d H. simpl in H. apply orb_false_elim in H. now apply Hd.
    + split; [ | now apply Hup ]. split.
      * simpl. now rewrite E, Hw.
      * intros d H. simpl in H. apply orb_false_elim in H. destruct H as [H1 H2].
        simpl. now rewrite H1, (Hd d H2).
Qed.

Lemma words_spec s w : In w (Py.words s) -> word_of s w.
Proof.
  destruct (words_from_spec s) as [[Hw Hd] Hws].
  rewrite words_eta. unfold Py.cons_word.
  rewrite Forall_forall in Hws.
  destruct (fst (Py.words_from s)) as [ | x f ] eqn:E; [ apply Hws | ].
  intros [H | H]; [ subst w | now apply Hws ].
  split; [ unfold is_word; now rewrite Hw | exact Hd ].
Qed.

(** ** Tokens and colons *)

Lemma pieces_count c s : length (snd (Py.pieces c s)) = count_char c s.
Proof.
  induction s as [ | a r IH ]; [ reflexivity | ].
  rewrite pieces_cons. simpl count_char.
  destruct (Ascii.eqb a c); cbn [snd].
  - rewrite split_pieces. simpl. now rewrite IH.
  - exact IH.
Qed.

(** X1: [tokenize] returns as many tokens as the line has colons, and no
    token holds a colon. *)
Theorem tokenize_count (s : string) :
  length (tokenize s) = count_char ":" s /\
  Forall (fun t0 => Py.contains ":" t0 = false) (tokenize s).
Proof.
  split.
  - rewrite tokenize_pieces. apply pieces_count.
  - rewrite Forall_forall. intros t0. apply token_free.
Qed.

Lemma join_cons sep x y l :
  Py.join sep (x :: y :: l) = (x ++ sep ++ Py.join sep (y :: l))%string.
Proof. reflexivity. Qed.

Lemma join_split c s : Py.join (String c EmptyString) (Py.split c s) = s.
Proof.
  induction s as [ | a r IH ]; [ reflexivity | ].
  rewrite split_pieces, pieces_cons. rewrite split_pieces in IH.
  destruct (Ascii.eqb a c) eqn:E; cbn [fst snd].
  - apply Ascii.eqb_eq in E. subst a.
    rewrite split_pieces, join_cons, IH. reflexivity.
  - destruct (snd (Py.pieces c r)) as [ | p ps ].
    + simpl in *. now rewrite IH.
    + rewrite join_cons in *. rewrite <- IH at 2. reflexivity.
Qed.

Lemma getMsg_payload s r payload c a :
  after_first ":" s = Some r -> after_first ":" r = Some payload ->
  getMsg (tokenize s) c a = Normal (Some payload).
Proof.
  intros Hr Hp. rewrite tokenize_after_first, Hr, split_pieces.
  rewrite pieces_after_first, Hp, split_pieces.
  unfold getMsg. cbn [length Nat.ltb Nat.leb skipn].
  rewrite <- split_pieces. now rewrite join_split.
Qed.

(** ** What a successful extraction has read *)

Lemma parse_fields s output v m :
  parse s output = Normal v -> fields_of v = Some m -> m = decode s.
Proof.
  rewrite parse_decode. intros Hv Hm. inversion Hv; subst v.
  rewrite fields_of_render in Hm. now inversion Hm.
Qed.

Lemma isServerMessage_inv t b :
  isServerMessage t = Normal b ->
  exists t0 rest w ws,
    t = t0 :: rest /\ Py.words t0 = w :: ws /\ b = negb (Py.contains "!" w).
Proof.
  unfold isServerMessage. destruct t as [ | t0 rest ]; [ discriminate | ].
  rewrite index_0. cbn [bind].
  destruct (Py.words t0) as [ | w ws ] eqn:E; [ discriminate | ].
  rewrite index_0. cbn [bind ret]. intros H. inversion H.
  exists t0, rest, w, ws. auto.
Qed.

Lemma getIRCCode_inv t0 rest w ws c :
  Py.words t0 = w :: ws -> getIRCCode (t0 :: rest) = Normal c ->
  exists cw ws', ws = cw :: ws' /\ c = (if is_int cw then Some cw else None).
Proof.
  intros Hw. unfold getIRCCode. rewrite index_0. cbn [bind]. rewrite Hw.
  destruct ws as [ | cw ws' ]; [ discriminate | ].
  rewrite index_1. cbn [bind]. intros H.
  exists cw, ws'. split; [ reflexivity | ]. unfold is_int.
  destruct (Py.int cw) as [ z | e ] eqn:E.
  - now inversion H.
  - apply int_raises_value_error in E. subst e. now inversion H.
Qed.

Lemma getAction_inv t0 rest w ws a :
  Py.words t0 = w :: ws -> getAction (t0 :: rest) = Normal a ->
  exists ws', ws = a :: ws'.
Proof.
  intros Hw. unfold getAction. rewrite index_0. cbn [bind]. rewrite Hw.
  destruct ws as [ | a' ws' ]; [ discriminate | ].
  rewrite index_1. intros H. inversion H. eauto.
Qed.

Lemma getRecipient_inv t0 rest w a ws r :
  Py.words t0 = w :: a :: ws -> getRecipient (t0 :: rest) = Normal r ->
  exists ws', ws = r :: ws'.
Proof.
  intros Hw. unfold getRecipient. rewrite index_0. cbn [bind]. rewrite Hw.
  destruct ws as [ | r' ws' ]; [ discriminate | ].
  intros H. inversion H. eauto.
Qed.

Lemma getServer_inv t0 rest w ws sv :
  Py.words t0 = w :: ws -> getServer (t0 :: rest) = Normal sv -> sv = w.
Proof.
  intros Hw. unfold getServer. rewrite index_0. cbn [bind]. rewrite Hw.
  rewrite index_0. intros H. now inversion H.
Qed.

Lemma general_extraction_inv t l :
  general_extraction t = Normal l ->
  exists t0 rest w cw ws c,
    t = t0 :: rest /\ Py.words t0 = w :: cw :: ws /\
    code l = Some c /\ c = (if is_int cw then Some cw else None) /\
    channel l = find (Py.startswith "#") (Py.words t0) /\
    msg l = msg_policy t c (action l) /\
    (server_locals l w \/ user_locals t l w (cw :: ws)).
Proof.
  intros H.
  destruct (general_extraction_msg _ _ H) as (_ & c0 & Hc0 & Hm0).
  unfold general_extraction in H.
  destruct (isServerMessage t) as [ b | ] eqn:Eb; [ | discriminate H ].
  destruct (isServerMessage_inv _ _ Eb) as (t0 & rest & w & ws & Ht & Hw & Hb).
  subst t. cbn [bind] in H.
  destruct b.
  - (* server-originated *)
    destruct (getServer (t0 :: rest)) as [ sv | ] eqn:Es; [ | discriminate H ].
    apply (getServer_inv _ _ _ _ _ Hw) in Es. subst sv.
    cbn [bind ret opt_is orb] in H.
    destruct (getIRCCode (t0 :: rest)) as [ c | ] eqn:Ec; [ | discriminate H ].
    destruct (getIRCCode_inv _ _ _ _ _ Hw Ec) as (cw & ws' & Hws & Hcv).
    cbn [bind] in H. unfold getChannel in H. rewrite index_0 in H.
    cbn [bind ret] in H.
    destruct (getMsg (t0 :: rest) c None); [ | discriminate H ].
    cbn [bind ret] in H. inversion H; subst l. simpl in *.
    inversion Hc0; subst c0. subst ws.
    exists t0, rest, w, cw, ws', c. repeat split; auto.
    left. unfold server_locals. simpl. repeat split; auto.
    symmetry in Hb. now apply negb_true_iff in Hb.
  - (* user-originated *)
    destruct (getNickname (t0 :: rest)) as [ n | ] eqn:En; [ | discriminate H ].
    destruct (getUser (t0 :: rest)) as [ u | ] eqn:Eu; [ | discriminate H ].
    destruct (getHostname (t0 :: rest)) as [ h | ] eqn:Eh; [ | discriminate H ].
    destruct (getAction (t0 :: rest)) as [ a | ] eqn:Ea; [ | discriminate H ].
    destruct (getAction_inv _ _ _ _ _ Hw Ea) as (ws' & Hws). subst ws.
    cbn [bind ret opt_is negb] in H.
    destruct (String.eqb a "NOTICE" || String.eqb a "PRIVMSG") eqn:Eto;
      cbn [bind ret] in H.
    + destruct (getRecipient (t0 :: rest)) as [ r | ] eqn:Er;
        [ | discriminate H ].
      destruct (getRecipient_inv _ _ _ _ _ _ Hw Er) as (ws'' & Hws'').
      subst ws'. cbn [bind ret] in H.
      destruct (getIRCCode (t0 :: rest)) as [ c | ] eqn:Ec; [ | discriminate H ].
      destruct (getIRCCode_inv _ _ _ _ _ Hw Ec) as (cw & ws2 & Hws2 & Hcv).
      inversion Hws2; subst cw ws2.
      cbn [bind] in H. unfold getChannel in H. rewrite index_0 in H.
      cbn [bind ret] in H.
      destruct (getMsg (t0 :: rest) c (Some a)); [ | discriminate H ].
      cbn [bind ret] in H. inversion H; subst l. simpl in *.
      inversion Hc0; subst c0.
      exists t0, rest, w, a, (r :: ws''), c. repeat split; auto.
      right. unfold user_locals. simpl.
      split; [ symmetry in Hb; now apply negb_false_iff in Hb | ].
      split; [ reflexivity | ].
      exists n, u, h, a, (r :: ws''). rewrite Eto.
      repeat split; auto. discriminate.
    + destruct (getIRCCode (t0 :: rest)) as [ c | ] eqn:Ec; [ | discriminate H ].
      destruct (getIRCCode_inv _ _ _ _ _ Hw Ec) as (cw & ws2 & Hws2 & Hcv).
      inversion Hws2; subst cw ws2.
      cbn [bind] in H. unfold getChannel in H. rewrite index_0 in H.
      cbn [bind ret] in H.
      destruct (getMsg (t0 :: rest) c (Some a)); [ | discriminate H ].
      cbn [bind ret] in H. inversion H; subst l. simpl in *.
      inversion Hc0; subst c0.
      exists t0, rest, w, a, ws', c. repeat split; auto.
      right. unfold user_locals. simpl.
      split; [ symmetry in Hb; now apply negb_false_iff in Hb | ].
      split; [ reflexivity | ].
      exists n, u, h, a, ws'. rewrite Eto.
      repeat split; auto. discriminate.
Qed.

(** The three ways [parse] comes to its message. *)
Lemma decode_cases s :
  decode s = ParsedMessage.absent \/
  (Py.startswith "PING" s = true /\
   exists t0 rest,
     tokenize s = t0 :: rest /\
     decode s = ParsedMessage.mk None None None None (Some "PING") (Some t0)) \/
  (Py.startswith "PING" s = false /\
   exists l c,
     general_extraction (tokenize s) = Normal l /\ code l = Some c /\
     decode s
     = ParsedMessage.mk (server l)
         (if opt_is (action l) "JOIN" then msg l else channel l)
         (recipient l) (user l)
         (if Py.truthy (action l) then action l else c)
         (if opt_is (action l) "PART" then channel l else msg l)).
Proof.
  destruct (Py.startswith "PING" s) eqn:Hp.
  - destruct (tokenize s) as [ | t0 rest ] eqn:Ht.
    + left. apply decode_raise with (e := IndexError).
      rewrite (ping_locals _ Hp), Ht. reflexivity.
    + right. left. split; [ reflexivity | ]. exists t0, rest.
      split; [ reflexivity | ].
      apply decode_normal with
        (l := mkLocals None None None None (Some "PING") None (Some t0)).
      * rewrite (ping_locals _ Hp), Ht. reflexivity.
      * reflexivity.
  - destruct (general_extraction (tokenize s)) as [ l | e ] eqn:El.
    + right. right. split; [ reflexivity | ].
      destruct (decode_general _ _ Hp El) as (c & Hc & Hd).
      exists l, c. auto.
    + left. apply decode_raise with (e := e).
      unfold _parse_locals. now rewrite Hp, El.
Qed.

Lemma is_word_truthy w : is_word w = true -> Py.truthy (Some w) = true.
Proof. unfold is_word. destruct w; [ discriminate | reflexivity ]. Qed.

Lemma opt_is_eq v k : opt_is v k = true -> v = Some k.
Proof.
  destruct v as [ x | ]; [ | discriminate ]. simpl. intros H.
  apply String.eqb_eq in H. now subst.
Qed.

Lemma first_token_in s t0 rest : tokenize s = t0 :: rest -> In t0 (tokenize s).
Proof. intros H. rewrite H. now left. Qed.

(** ** The payload after the second colon *)

(** X2: on a line that is not a PING line, the text after the second
    colon is returned as msg character for character, later colons
    included, unless the line falls back to the all-absent message or its
    type is PART. *)
Theorem payload_verbatim (s output r payload : string)
  (v : output_value) (m : ParsedMessage.t) :
  Py.startswith "PING" s = false ->
  after_first ":" s = Some r -> after_first ":" r = Some payload ->
  parse s output = Normal v -> fields_of v = Some m ->
  m = ParsedMessage.absent \/ ParsedMessage.type m = Some "PART" \/
  ParsedMessage.msg m = Some payload.
Proof.
  intros Hp Hr Hpay Hv Hm. rewrite (parse_fields _ _ _ _ Hv Hm).
  destruct (decode_cases s) as [ Ha | [ (Hping & _) | (_ & l & c & Hl & Hc & Hd) ] ].
  - now left.
  - rewrite Hp in Hping. discriminate Hping.
  - right. rewrite Hd. simpl.
    destruct (general_extraction_msg _ _ Hl) as (Ht & c' & Hc' & Hmsg).
    pose proof (getMsg_policy _ c' (action l) Ht) as G.
    rewrite (getMsg_payload _ _ _ c' (action l) Hr Hpay) in G.
    destruct (opt_is (action l) "PART") eqn:Epart.
    + left. apply opt_is_eq in Epart. rewrite Epart. reflexivity.
    + right. rewrite Hmsg. now inversion G.
Qed.

Lemma payload_verbatim_witness :
  ParsedMessage.mk (Some "irc.codetalk.io") (Some "#lobby") None None
    (Some "332") (Some "Let us all have great fun! :D")
  = ParsedMessage.absent \/
  Some "332" = Some "PART" \/
  Some "Let us all have great fun! :D" = Some "Let us all have great fun! :D".
Proof.
  exact (payload_verbatim
           ":irc.codetalk.io 332 Innocence #lobby :Let us all have great fun! :D"
           "tuple"
           "irc.codetalk.io 332 Innocence #lobby :Let us all have great fun! :D"
           "Let us all have great fun! :D"
           (OutTuple [VStr "irc.codetalk.io"; VStr "#lobby"; VNone; VNone;
                      VStr "332"; VStr "Let us all have great fun! :D"])
           (ParsedMessage.mk (Some "irc.codetalk.io") (Some "#lobby") None None
              (Some "332") (Some "Let us all have great fun! :D"))
           eq_refl eq_refl eq_refl eq_refl eq_refl).
Defined.

(** ** What the fields of a returned message look like *)

Lemma words_of_first_token s t0 rest w :
  tokenize s = t0 :: rest -> In w (Py.words t0) ->
  is_word w = true /\ Py.contains ":" w = false.
Proof.
  intros Ht Hw. destruct (words_spec _ _ Hw) as [H1 H2].
  split; [ exact H1 | ]. apply H2. apply token_free with (s := s).
  now apply first_token_in with (rest := rest).
Qed.



(** X4: when [parse] returns a server, it is the first word of the first
    token and holds no ['!'], colon or whitespace; the recipient and the
    user are then absent, and the type is absent or a string that [int]
    accepts: the command word of a server line is never returned. *)
Theorem server_message_fields (s output sv : string)
  (v : output_value) (m : ParsedMessage.t) :
  parse s output = Normal v -> fields_of v = Some m ->
  ParsedMessage.server m = Some sv ->
  is_word sv = true /\ Py.contains "!" sv = false /\
  Py.contains ":" sv = false /\
  ParsedMessage.user m = None /\ ParsedMessage.recipient m = None /\
  (ParsedMessage.type m = None \/
   exists ty, ParsedMessage.type m = Some ty /\ is_int ty = true).
Proof.
  intros Hv Hm. rewrite (parse_fields _ _ _ _ Hv Hm).
  destruct (decode_cases s)
    as [ Ha | [ (_ & t0 & rest & _ & Hd) | (_ & l & cd & Hl & Hc & Hd) ] ].
  - rewrite Ha. discriminate.
  - rewrite Hd. discriminate.
  - rewrite Hd. simpl. intros Hs.
    destruct (general_extraction_inv _ _ Hl)
      as (t0 & rest & w & cw & ws & c' & Ht & Hw & Hc' & Hcv & _ & _ & Hor).
    destruct Hor as [ (Hb & Hsv & Hu & Hact & Hrec) | (_ & Hsv & _) ];
      [ | rewrite Hsv in Hs; discriminate Hs ].
    rewrite Hsv in Hs. inversion Hs; subst sv.
    destruct (words_of_first_token s t0 rest w Ht) as [Hword Hcol];
      [ rewrite Hw; now left | ].
    rewrite Hu, Hrec, Hact. simpl.
    rewrite Hc in Hc'. inversion Hc'; subst cd.
    repeat split; auto.
    rewrite Hcv. destruct (is_int cw) eqn:Ei; [ right; eauto | now left ].
Qed.

Lemma server_message_fields_witness :
  is_word "irc.example.net" = true /\
  Py.contains "!" "irc.example.net" = false /\
  Py.contains ":" "irc.example.net" = false /\
  @None (string * string * string) = None /\ @None string = None /\
  (@None string = None \/ exists ty, None = Some ty /\ is_int ty = true).
Proof.
  exact (server_message_fields
           ":irc.example.net NOTICE * :Looking up your hostname" "tuple"
           "irc.example.net"
           (OutTuple [VStr "irc.example.net"; VNone; VNone; VNone; VNone;
                      VStr "Looking up your hostname"])
           (ParsedMessage.mk (Some "irc.example.net") None None None None
              (Some "Looking up your hostname"))
           eq_refl eq_refl eq_refl).
Defined.

(** X5: when [parse] returns a recipient, the type is NOTICE or PRIVMSG,
    the user is set and the server absent, and the recipient is a word:
    not empty, and free of whitespace and colons. *)
Theorem recipient_only_for_user_messages (s output r : string)
  (v : output_value) (m : ParsedMessage.t) :
  parse s output = Normal v -> fields_of v = Some m ->
  ParsedMessage.recipient m = Some r ->
  (ParsedMessage.type m = Some "NOTICE" \/
   ParsedMessage.type m = Some "PRIVMSG") /\
  ParsedMessage.server m = None /\
  (exists u, ParsedMessage.user m = Some u) /\
  is_word r = true /\ Py.contains ":" r = false.
Proof.
  intros Hv Hm. rewrite (parse_fields _ _ _ _ Hv Hm).
  destruct (decode_cases s)
    as [ Ha | [ (_ & t0 & rest & _ & Hd) | (_ & l & cd & Hl & Hc & Hd) ] ].
  - rewrite Ha. discriminate.
  - rewrite Hd. discriminate.
  - rewrite Hd. simpl. intros Hr.
    destruct (general_extraction_inv _ _ Hl)
      as (t0 & rest & w & cw & ws & c' & Ht & Hw & _ & _ & _ & _ & Hor).
    destruct Hor as [ (_ & _ & _ & _ & Hrec) | (_ & Hsv & Hu) ];
      [ rewrite Hrec in Hr; discriminate Hr | ].
    destruct Hu as (n & u & h & a & ws' & _ & _ & _ & Hu & Hws & Hact & Hrec & _).
    inversion Hws; subst cw ws'. rewrite Hrec in Hr.
    destruct (String.eqb a "NOTICE" || String.eqb a "PRIVMSG") eqn:Eto;
      [ | discriminate Hr ].
    destruct ws as [ | r' ws'' ]; [ discriminate Hr | ].
    simpl in Hr. inversion Hr; subst r'.
    rewrite Hact, Hsv, Hu.
    destruct (words_of_first_token s t0 rest r Ht) as [Hword Hcol];
      [ rewrite Hw; right; right; now left | ].
    apply orb_prop in Eto.
    repeat split; eauto.
    destruct Eto as [E | E]; apply String.eqb_eq in E; subst a; simpl; auto.
Qed.

Lemma recipient_only_for_user_messages_witness :
  (Some "NOTICE" = Some "NOTICE" \/ Some "NOTICE" = Some "PRIVMSG") /\
  @None string = None /\
  (exists u, Some ("nick", "u", "h") = Some u) /\
  is_word "someone" = true /\ Py.contains ":" "someone" = false.
Proof.
  exact (recipient_only_for_user_messages
           ":nick!u@h NOTICE someone :psst" "tuple" "someone"
           (OutTuple [VNone; VNone; VStr "someone"; VTuple ["nick"; "u"; "h"];
                      VStr "NOTICE"; VStr "psst"])
           (ParsedMessage.mk None None (Some "someone")
              (Some ("nick", "u", "h")) (Some "NOTICE") (Some "psst"))
           eq_refl eq_refl eq_refl).
Defined.

Lemma strippedNickname_free d n :
  Py.contains d n = false -> Py.contains d (strippedNickname n) = false.
Proof.
  destruct n as [ | a [ | b r ] ]; simpl; auto.
  destruct (Py.is_sigil a); simpl; auto.
  intros H. apply orb_false_elim in H. tauto.
Qed.

Lemma getNickname_inv t0 rest n :
  getNickname (t0 :: rest) = Normal n -> In n (Py.split "!" t0).
Proof.
  unfold getNickname. rewrite index_0. cbn [bind]. apply index_in.
Qed.

Lemma getUser_inv t0 rest u :
  getUser (t0 :: rest) = Normal u ->
  exists p, In p (Py.split "!" t0) /\ In u (Py.split "@" p).
Proof.
  unfold getUser. rewrite index_0. cbn [bind].
  destruct (Py.index (Py.split "!" t0) 1) as [ p | ] eqn:Ep; [ | discriminate ].
  cbn [bind]. intros H. exists p. split; eapply index_in; eassumption.
Qed.

Lemma getHostname_inv t0 rest h :
  getHostname (t0 :: rest) = Normal h ->
  exists p q,
    In p (Py.split "!" t0) /\ In q (Py.split "@" p) /\ In h (Py.words q).
Proof.
  unfold getHostname. rewrite index_0. cbn [bind].
  destruct (Py.index (Py.split "!" t0) 1) as [ p | ] eqn:Ep; [ | discriminate ].
  cbn [bind].
  destruct (Py.index (Py.split "@" p) 1) as [ q | ] eqn:Eq; [ | discriminate ].
  cbn [bind]. intros H. exists p, q.
  repeat split; eapply index_in; eassumption.
Qed.

(** X6: the user triple that [parse] returns is free of the separators
    it was cut at: the nick holds no ['!'] and no colon, the user holds
    no ['!'], ['@'] or colon, and the host is a word (not empty, no
    whitespace) that holds no ['!'], ['@'] or colon. *)
Theorem user_triple_clean (s output n u h : string)
  (v : output_value) (m : ParsedMessage.t) :
  parse s output = Normal v -> fields_of v = Some m ->
  ParsedMessage.user m = Some (n, u, h) ->
  (Py.contains "!" n = false /\ Py.contains ":" n = false) /\
  (Py.contains "!" u = false /\ Py.contains "@" u = false /\
   Py.contains ":" u = false) /\
  (is_word h = true /\ Py.contains "!" h = false /\
   Py.contains "@" h = false /\ Py.contains ":" h = false).
Proof.
  intros Hv Hm. rewrite (parse_fields _ _ _ _ Hv Hm).
  destruct (decode_cases s)
    as [ Ha | [ (_ & t0 & rest & _ & Hd) | (_ & l & cd & Hl & Hc & Hd) ] ].
  - rewrite Ha. discriminate.
  - rewrite Hd. discriminate.
  - rewrite Hd. simpl. intros Hu.
    destruct (general_extraction_inv _ _ Hl)
      as (t0 & rest & w & cw & ws & c' & Ht & Hw & _ & _ & _ & _ & Hor).
    destruct Hor as [ (_ & _ & Hnone & _) | (_ & _ & Hul) ];
      [ rewrite Hnone in Hu; discriminate Hu | ].
    destruct Hul as (n0 & u0 & h0 & a & ws' & Hn & Hus & Hh & Hul & _).
    rewrite Hul in Hu. inversion Hu; subst n u h. clear Hu.
    rewrite Ht in Hn, Hus, Hh.
    assert (Hcol : Py.contains ":" t0 = false).
    { apply token_free with (s := s). rewrite Ht. now left. }
    apply getNickname_inv in Hn.
    destruct (getUser_inv _ _ _ Hus) as (p & Hp & Hup).
    destruct (getHostname_inv _ _ _ Hh) as (p' & q & Hp' & Hq & Hhq).
    split; [ | split ].
    + split; apply strippedNickname_free.
      * now apply split_piece_free with (s := t0).
      * now apply split_piece_inherits with (c := "!"%char) (s := t0).
    + split; [ | split ].
      * apply split_piece_inherits with (c := "@"%char) (s := p); [ | exact Hup ].
        now apply split_piece_free with (s := t0).
      * now apply split_piece_free with (s := p).
      * apply split_piece_inherits with (c := "@"%char) (s := p); [ | exact Hup ].
        now apply split_piece_inherits with (c := "!"%char) (s := t0).
    + destruct (words_spec _ _ Hhq) as [Hword Hinh].
      assert (Hq1 : Py.contains "!" q = false).
      { apply split_piece_inherits with (c := "@"%char) (s := p'); [ | exact Hq ].
        now apply split_piece_free with (s := t0). }
      assert (Hq2 : Py.contains "@" q = false)
        by now apply split_piece_free with (s := p').
      assert (Hq3 : Py.contains ":" q = false).
      { apply split_piece_inherits with (c := "@"%char) (s := p'); [ | exact Hq ].
        now apply split_piece_inherits with (c := "!"%char) (s := t0). }
      repeat split; auto.
Qed.

Lemma user_triple_clean_witness :
  (Py.contains "!" "Tehnix" = false /\ Py.contains ":" "Tehnix" = false) /\
  (Py.contains "!" "tehnix" = false /\ Py.contains "@" "tehnix" = false /\
   Py.contains ":" "tehnix" = false) /\
  (is_word "ghost.example.com" = true /\
   Py.contains "!" "ghost.example.com" = false /\
   Py.contains "@" "ghost.example.com" = false /\
   Py.contains ":" "ghost.example.com" = false).
Proof.
  exact (user_triple_clean
           ":@Tehnix!tehnix@ghost.example.com NICK :BlaBliBlu" "tuple"
           "Tehnix" "tehnix" "ghost.example.com"
           (OutTuple [VNone; VNone; VNone;
                      VTuple ["Tehnix"; "tehnix"; "ghost.example.com"];
                      VStr "NICK"; VStr "BlaBliBlu"])
           (ParsedMessage.mk None None None
              (Some ("Tehnix", "tehnix", "ghost.example.com"))
              (Some "NICK") (Some "BlaBliBlu"))
           eq_refl eq_refl eq_refl).
Defined.

(** X7: when [parse] returns a user, it returns a type as well, and this
    type is the second word of the first token, whether or not [int]
    accepts it; the server is absent. *)
Theorem user_message_has_type (s output : string)
  (u : string * string * string) (v : output_value) (m : ParsedMessage.t) :
  parse s output = Normal v -> fields_of v = Some m ->
  ParsedMessage.user m = Some u ->
  ParsedMessage.server m = None /\
  exists t0 rest w a ws,
    tokenize s = t0 :: rest /\ Py.words t0 = w :: a :: ws /\
    ParsedMessage.type m = Some a /\ is_word a = true.
Proof.
  intros Hv Hm. rewrite (parse_fields _ _ _ _ Hv Hm).
  destruct (decode_cases s)
    as [ Ha | [ (_ & t0 & rest & _ & Hd) | (_ & l & cd & Hl & Hc & Hd) ] ].
  - rewrite Ha. discriminate.
  - rewrite Hd. discriminate.
  - rewrite Hd. simpl. intros Hu.
    destruct (general_extraction_inv _ _ Hl)
      as (t0 & rest & w & cw & ws & c' & Ht & Hw & _ & _ & _ & _ & Hor).
    destruct Hor as [ (_ & _ & Hnone & _) | (_ & Hsv & Hul) ];
      [ rewrite Hnone in Hu; discriminate Hu | ].
    destruct Hul as (n0 & u0 & h0 & a & ws' & _ & _ & _ & _ & Hws & Hact & _).
    inversion Hws; subst cw ws'.
    split; [ exact Hsv | ].
    exists t0, rest, w, a, ws. split; [ exact Ht | ]. split; [ exact Hw | ].
    destruct (words_of_first_token s t0 rest a Ht) as [Hword _];
      [ rewrite Hw; right; now left | ].
    rewrite Hact, (is_word_truthy _ Hword). auto.
Qed.

Lemma user_message_has_type_witness :
  @None string = None /\
  exists t0 rest w a ws,
    tokenize ":nick!u@h 12 x" = t0 :: rest /\ Py.words t0 = w :: a :: ws /\
    Some "12" = Some a /\ is_word a = true.
Proof.
  exact (user_message_has_type ":nick!u@h 12 x" "tuple" ("nick", "u", "h")
           (OutTuple [VNone; VNone; VNone; VTuple ["nick"; "u"; "h"];
                      VStr "12"; VNone])
           (ParsedMessage.mk None None None (Some ("nick", "u", "h"))
              (Some "12") None)
           eq_refl eq_refl eq_refl).
Defined.

(** X8: the fallback is all or nothing.  A message returned by [parse]
    is the all-absent one, or that of a PING line (type PING, msg set, no
    origin), or that of another line with exactly one of server and user
    set. *)
Theorem origin_or_absent (s output : string)
  (v : output_value) (m : ParsedMessage.t) :
  parse s output = Normal v -> fields_of v = Some m ->
  m = ParsedMessage.absent \/
  (Py.startswith "PING" s = true /\
   exists p, m = ParsedMessage.mk None None None None (Some "PING") (Some p)) \/
  (Py.startswith "PING" s = false /\
   ((exists sv, ParsedMessage.server m = Some sv) /\ ParsedMessage.user m = None
    \/ ParsedMessage.server m = None /\ exists u, ParsedMessage.user m = Some u)).
Proof.
  intros Hv Hm. rewrite (parse_fields _ _ _ _ Hv Hm).
  destruct (decode_cases s)
    as [ Ha | [ (Hp & t0 & rest & _ & Hd) | (Hp & l & cd & Hl & Hc & Hd) ] ].
  - now left.
  - right. left. split; [ exact Hp | ]. now exists t0.
  - right. right. split; [ exact Hp | ]. rewrite Hd. simpl.
    destruct (general_extraction_inv _ _ Hl)
      as (t0 & rest & w & cw & ws & c' & _ & _ & _ & _ & _ & _ & Hor).
    destruct Hor as [ (_ & Hsv & Hu & _) | (_ & Hsv & Hul) ].
    + left. split; [ now exists w | exact Hu ].
    + right. split; [ exact Hsv | ].
      destruct Hul as (n0 & u0 & h0 & a & ws' & _ & _ & _ & Hu & _). eauto.
Qed.

Lemma origin_or_absent_witness :
  ParsedMessage.absent = ParsedMessage.absent \/
  (Py.startswith "PING" ":alone" = true /\
   exists p, ParsedMessage.absent
             = ParsedMessage.mk None None None None (Some "PING") (Some p)) \/
  (Py.startswith "PING" ":alone" = false /\
   ((exists sv, @None string = Some sv) /\
    @None (string * string * string) = None
    \/ @None string = None /\
       exists u, @None (string * string * string) = Some u)).
Proof.
  exact (origin_or_absent ":alone" "tuple"
           (OutTuple [VNone; VNone; VNone; VNone; VNone; VNone])
           ParsedMessage.absent eq_refl eq_refl).
Defined.

(** ** Lines that are too short, and server lines *)

(** X9: a line that is not a PING line and whose first token has fewer
    than two words falls back to the all-absent message, whatever its
    first word is: the second word is read on every path. *)
Theorem short_first_token_absent (s output t0 : string) (rest : list string) :
  Py.startswith "PING" s = false ->
  tokenize s = t0 :: rest ->
  length (Py.words t0) < 2 ->
  parse s output = Normal (render output ParsedMessage.absent).
Proof.
  intros Hp Ht Hlen. rewrite parse_decode. f_equal. f_equal.
  destruct (decode_cases s)
    as [ Ha | [ (Hping & _) | (_ & l & cd & Hl & _) ] ].
  - exact Ha.
  - rewrite Hp in Hping. discriminate Hping.
  - destruct (general_extraction_inv _ _ Hl)
      as (t0' & rest' & w & cw & ws & c' & Ht' & Hw & _).
    rewrite Ht in Ht'. inversion Ht'; subst t0' rest'.
    rewrite Hw in Hlen. simpl in Hlen. lia.
Qed.

Lemma short_first_token_absent_witness :
  parse ":irc.example.net :motd" "tuple"
  = Normal (OutTuple [VNone; VNone; VNone; VNone; VNone; VNone]).
Proof.
  apply (short_first_token_absent ":irc.example.net :motd" "tuple"
           "irc.example.net " ["motd"] eq_refl eq_refl).
  simpl. lia.
Defined.

(** X10: a line that is not a PING line, whose first token has at least
    two words and whose first word holds no ['!'], always decodes: the
    server is the first word, the channel the first word that starts
    with ['#'], the type the second word when [int] accepts it and absent
    otherwise, the msg the payload, and recipient and user are absent. *)
Theorem server_line_decoded
  (s output t0 w cw : string) (rest ws : list string) :
  Py.startswith "PING" s = false ->
  tokenize s = t0 :: rest ->
  Py.words t0 = w :: cw :: ws ->
  Py.contains "!" w = false ->
  parse s output
  = Normal (render output
              (ParsedMessage.mk (Some w)
                 (find (Py.startswith "#") (Py.words t0)) None None
                 (if is_int cw then Some cw else None)
                 (msg_policy (t0 :: rest)
                    (if is_int cw then Some cw else None) None))).
Proof.
  intros Hp Ht Hw Hb. rewrite parse_decode. f_equal. f_equal.
  assert (Hcode : getIRCCode (t0 :: rest)
                  = Normal (if is_int cw then Some cw else None)).
  { unfold getIRCCode. rewrite index_0. cbn [bind]. rewrite Hw, index_1.
    cbn [bind]. unfold is_int.
    destruct (Py.int cw) as [ z | e ] eqn:E; [ reflexivity | ].
    apply int_raises_value_error in E. now subst e. }
  assert (Hl : general_extraction (tokenize s)
               = Normal (mkLocals (Some w)
                           (find (Py.startswith "#") (Py.words t0)) None None
                           None (Some (if is_int cw then Some cw else None))
                           (msg_policy (t0 :: rest)
                              (if is_int cw then Some cw else None) None))).
  { rewrite Ht. unfold general_extraction.
    unfold isServerMessage, getServer. rewrite index_0. cbn [bind].
    rewrite Hw, index_0. cbn [bind ret]. rewrite Hb.
    cbn [negb bind ret opt_is orb]. rewrite Hcode. cbn [bind].
    unfold getChannel. rewrite index_0. cbn [bind ret].
    rewrite getMsg_policy by discriminate. cbn [bind ret].
    now rewrite ?Hw. }
  destruct (decode_general _ _ Hp Hl) as (c & Hc & Hd).
  rewrite Hd. simpl in *. inversion Hc. reflexivity.
Qed.

Lemma server_line_decoded_witness :
  parse ":irc.example.net 353 nick = #chan :@op +voiced plain" "tuple"
  = Normal (OutTuple [VStr "irc.example.net"; VStr "#chan"; VNone; VNone;
                      VStr "353"; VStr "@op +voiced plain"]).
Proof.
  exact (server_line_decoded
           ":irc.example.net 353 nick = #chan :@op +voiced plain" "tuple"
           "irc.example.net 353 nick = #chan " "irc.example.net" "353"
           ["@op +voiced plain"] ["nick"; "="; "#chan"]
           eq_refl eq_refl eq_refl eq_refl).
Defined.

(** ** The stripped nickname *)

(** X11: [strippedNickname] removes at most one character, the first
    one and only when it is one of the four sigils, and never returns
    the empty string for a nickname that is not empty: a lone sigil is
    kept. *)
Theorem strippedNickname_at_most_one (s : string) :
  (strippedNickname s = s \/
   exists a, Py.is_sigil a = true /\ s = String a (strippedNickname s)) /\
  (s <> EmptyString -> strippedNickname s <> EmptyString) /\
  String.length s <= 1 + String.length (strippedNickname s).
Proof.
  destruct s as [ | a [ | b r ] ]; simpl.
  - split; [ now left | ]. split; [ auto | lia ].
  - split; [ now left | ]. split; [ auto | lia ].
  - destruct (Py.is_sigil a) eqn:E.
    + split; [ right; now exists a | ]. split; [ discriminate | simpl; lia ].
    + split; [ now left | ]. split; [ discriminate | simpl; lia ].
Qed.

Lemma strippedNickname_at_most_one_witness :
  strippedNickname "~" <> EmptyString.
Proof.
  apply (proj1 (proj2 (strippedNickname_at_most_one "~"))). discriminate.
Defined.

(** ** The entry point *)

Lemma _parse_index_only s output e : _parse s output = Raise e -> e = IndexError.
Proof.
  destruct (_parse_locals s) as [ l | e' ] eqn:El.
  - destruct (action_or_code_defined _ _ El) as [ty Hty].
    rewrite (_parse_render _ output _ _ El Hty). discriminate.
  - rewrite (_parse_raise _ output _ El). intros H. inversion H; subst e'.
    now apply (index_only__parse_locals s).
Qed.

Lemma _parse_locals_no_colon s :
  Py.contains ":" s = false -> _parse_locals s = Raise IndexError.
Proof.
  intros Hc. unfold _parse_locals. rewrite (tokenize_no_colon _ Hc).
  now destruct (Py.startswith "PING" s).
Qed.

(** X12: [main] decodes the joined arguments with [_parse], not with the
    wrapper: when the line holds no colon it raises [IndexError]; it
    raises nothing else on any line; and when it returns, the value it
    prints is the one [parse] returns in dict mode. *)
Theorem main_not_wrapped (argv : list string) :
  (Py.contains ":" (Py.join " " (skipn 1 argv)) = false ->
   main argv = Raise IndexError) /\
  (forall e, main argv = Raise e -> e = IndexError) /\
  (forall v, main argv = Normal v ->
             parse (Py.join " " (skipn 1 argv)) "dict" = Normal v).
Proof.
  unfold main. repeat split.
  - intros Hc. apply _parse_raise. now apply _parse_locals_no_colon.
  - intros e. apply _parse_index_only.
  - intros v H. unfold parse. now rewrite H.
Qed.

Lemma main_not_wrapped_witness :
  main ["ircparser.py"; "hello"; "world"] = Raise IndexError.
Proof.
  exact (proj1 (main_not_wrapped ["ircparser.py"; "hello"; "world"]) eq_refl).
Defined.

(** ** Output modes *)

(** X13: an output mode that is none of dict, dictionary, object and
    list gives what the mode tuple gives. *)
Theorem unknown_output_is_tuple (s output : string) :
  String.eqb output "dict" = false ->
  String.eqb output "dictionary" = false ->
  String.eqb output "object" = false ->
  String.eqb output "list" = false ->
  parse s output = parse s "tuple".
Proof.
  intros H1 H2 H3 H4. rewrite !parse_decode. unfold render.
  rewrite H1, H2, H3, H4. reflexivity.
Qed.

Lemma unknown_output_is_tuple_witness :
  parse "PING :irc.example.net" "Dict"
  = Normal (OutTuple [VNone; VNone; VNone; VNone; VStr "PING";
                      VStr "irc.example.net"]).
Proof.
  rewrite (unknown_output_is_tuple "PING :irc.example.net" "Dict"
             eq_refl eq_refl eq_refl eq_refl).
  reflexivity.
Defined.

(** ** Records *)

Lemma strings_eqb_spec a b : strings_eqb a b = true <-> a = b.
Proof.
  revert b. induction a as [ | x a IH ]; intros [ | y b ]; simpl;
    try (split; [ discriminate | discriminate ]); [ tauto | ].
  rewrite andb_true_iff, String.eqb_eq, IH. split.
  - intros [-> ->]. reflexivity.
  - intros H. inversion H. auto.
Qed.

Lemma value_eqb_spec a b : value_eqb a b = true <-> a = b.
Proof.
  destruct a as [ | x | x ], b as [ | y | y ]; simpl;
    try (split; [ discriminate | discriminate ]); [ tauto | | ].
  - rewrite String.eqb_eq. split; [ now intros -> | intros H; now inversion H ].
  - rewrite strings_eqb_spec.
    split; [ now intros -> | intros H; now inversion H ].
Qed.

Lemma of_str_inj x y : of_str x = of_str y -> x = y.
Proof. destruct x, y; simpl; intros H; now inversion H. Qed.

Lemma of_user_inj x y : of_user x = of_user y -> x = y.
Proof.
  destruct x as [ [[a b] c] | ], y as [ [[a' b'] c'] | ]; simpl; intros H;
    now inversion H.
Qed.

Ltac differ E :=
  exists false; split;
  [ reflexivity
  | split;
    [ discriminate
    | let H := fresh in
      intros H; inversion H; subst;
      match type of E with
      | value_eqb ?a ?a = false =>
          rewrite (proj2 (value_eqb_spec a a) eq_refl) in E; discriminate E
      end ] ].

(** [__eq__] on the tables of two messages. *)
Lemma ParseOutput_eq_mapping m1 m2 :
  exists b,
    ParseOutput_eq (to_mapping m1) (to_mapping m2) = Some b /\
    (b = true <-> m1 = m2).
Proof.
  destruct m1 as [s1 c1 r1 u1 t1 g1], m2 as [s2 c2 r2 u2 t2 g2].
  unfold ParseOutput_eq, attr_eq. cbn [to_mapping to_sequence combine keys
    lookup String.eqb Ascii.eqb Bool.eqb ParsedMessage.server
    ParsedMessage.channel ParsedMessage.recipient ParsedMessage.user
    ParsedMessage.type ParsedMessage.msg].
  destruct (value_eqb (of_str s1) (of_str s2)) eqn:E1; cbn [and_then];
    [ | differ E1 ].
  destruct (value_eqb (of_str c1) (of_str c2)) eqn:E2; cbn [and_then];
    [ | differ E2 ].
  destruct (value_eqb (of_str r1) (of_str r2)) eqn:E3; cbn [and_then];
    [ | differ E3 ].
  destruct (value_eqb (of_user u1) (of_user u2)) eqn:E4; cbn [and_then];
    [ | differ E4 ].
  destruct (value_eqb (of_str t1) (of_str t2)) eqn:E5; cbn [and_then];
    [ | differ E5 ].
  destruct (value_eqb (of_str g1) (of_str g2)) eqn:E6; [ | differ E6 ].
  exists true. split; [ reflexivity | ]. split; [ intros _ | reflexivity ].
  apply value_eqb_spec in E1, E2, E3, E4, E5, E6.
  apply of_str_inj in E1, E2, E3, E5, E6. apply of_user_inj in E4.
  now subst.
Qed.

(** X14: on the records that [parse] returns in object mode for two
    lines, [__eq__] never fails for a missing attribute, and it is true
    exactly when [parse] returns equal values for the two lines in every
    output mode. *)
Theorem ParseOutput_eq_parse (s1 s2 : string) :
  exists a1 a2 b,
    parse s1 "object" = Normal (OutObject a1) /\
    parse s2 "object" = Normal (OutObject a2) /\
    ParseOutput_eq a1 a2 = Some b /\
    (b = true <-> forall output, parse s1 output = parse s2 output).
Proof.
  destruct (ParseOutput_eq_mapping (decode s1) (decode s2)) as (b & Hb & Hiff).
  exists (to_mapping (decode s1)), (to_mapping (decode s2)), b.
  split; [ apply parse_decode | ]. split; [ apply parse_decode | ].
  split; [ exact Hb | ]. rewrite Hiff. split.
  - intros H output. now rewrite !parse_decode, H.
  - intros H. specialize (H "dict"). rewrite !parse_decode in H.
    apply (f_equal (fun r => match r with
                             | Normal v => fields_of v
                             | Raise _ => None
                             end)) in H.
    cbv beta iota in H. rewrite !fields_of_render in H. now inversion H.
Qed.

Lemma ParseOutput_eq_parse_witness :
  exists a1 a2,
    parse "irc.example.net:nick!u@h PRIVMSG #chan :hi" "object"
    = Normal (OutObject a1) /\
    parse ":nick!u@h PRIVMSG #chan :hi" "object" = Normal (OutObject a2) /\
    ParseOutput_eq a1 a2 = Some true.
Proof.
  destruct (ParseOutput_eq_parse "irc.example.net:nick!u@h PRIVMSG #chan :hi"
              ":nick!u@h PRIVMSG #chan :hi")
    as (a1 & a2 & b & H1 & H2 & Hb & Hiff).
  exists a1, a2. split; [ exact H1 | ]. split; [ exact H2 | ].
  rewrite Hb. f_equal. apply Hiff. intros output.
  rewrite !parse_decode. reflexivity.
Defined.

Lemma lookup_setattr_same attrs k v : lookup k (setattr attrs k v) = Some v.
Proof.
  induction attrs as [ | [k' v'] r IH ]; simpl.
  - now rewrite String.eqb_refl.
  - destruct (String.eqb k' k) eqn:E; simpl; rewrite E; auto.
Qed.

Lemma lookup_setattr_other attrs k k' v :
  String.eqb k k' = false -> lookup k' (setattr attrs k v) = lookup k' attrs.
Proof.
  intros Hk. induction attrs as [ | [k0 v0] r IH ]; simpl.
  - now rewrite Hk.
  - destruct (String.eqb k0 k) eqn:E; simpl.
    + apply String.eqb_eq in E. subst k0. now rewrite Hk.
    + now rewrite IH.
Qed.

Lemma fold_setattr_missing d init k :
  lookup k d = None ->
  lookup k (fold_left (fun obj kv => setattr obj (fst kv) (snd kv)) d init)
  = lookup k init.
Proof.
  revert init. induction d as [ | [k1 v1] r IH ]; intros init; simpl;
    [ reflexivity | ].
  destruct (String.eqb k1 k) eqn:E; [ discriminate | ].
  intros H. rewrite (IH _ H). now apply lookup_setattr_other.
Qed.

Lemma lookup_none_not_in k d : ~ In k (map fst d) -> lookup k d = None.
Proof.
  induction d as [ | [k1 v1] r IH ]; simpl; [ reflexivity | ].
  intros H. destruct (String.eqb k1 k) eqn:E.
  - apply String.eqb_eq in E. tauto.
  - apply IH. tauto.
Qed.

Lemma fold_setattr_bound d init k v :
  NoDup (map fst d) -> lookup k d = Some v ->
  lookup k (fold_left (fun obj kv => setattr obj (fst kv) (snd kv)) d init)
  = Some v.
Proof.
  revert init. induction d as [ | [k1 v1] r IH ]; intros init; simpl;
    [ discriminate | ].
  intros Hnd. inversion Hnd as [ | ? ? Hnin Hnd' ]; subst.
  destruct (String.eqb k1 k) eqn:E.
  - intros H. inversion H; subst v1. apply String.eqb_eq in E. subst k1.
    rewrite (fold_setattr_missing _ _ _ (lookup_none_not_in _ _ Hnin)).
    apply lookup_setattr_same.
  - intros H. now apply IH.
Qed.

(** X15: the record that [getOutputObject] builds from a mapping has
    every key of the mapping bound to the mapping's value, and every
    other attribute as [ParseOutput()] made it: the six field names are
    [None] unless the mapping binds them, and no other name is bound. *)
Theorem getOutputObject_attributes (d : list (string * value)) (k : string) :
  NoDup (map fst d) ->
  exists attrs,
    getOutputObject d = OutObject attrs /\
    lookup k attrs
    = match lookup k d with
      | Some v => Some v
      | None => if existsb (String.eqb k) keys then Some VNone else None
      end.
Proof.
  intros Hnd. eexists. split; [ reflexivity | ].
  destruct (lookup k d) as [ v | ] eqn:E.
  - now apply fold_setattr_bound.
  - rewrite (fold_setattr_missing _ _ _ E).
    unfold ParseOutput, keys. cbn [lookup existsb].
    rewrite !(String.eqb_sym k).
    repeat match goal with
    | |- context [ String.eqb ?a k ] =>
        destruct (String.eqb a k); cbn [orb]; [ reflexivity | ]
    end.
    reflexivity.
Qed.

Lemma getOutputObject_attributes_witness :
  exists attrs,
    getOutputObject [("msg", VStr "hi"); ("extra", VStr "x")]
    = OutObject attrs /\
    lookup "server" attrs = Some VNone.
Proof.
  apply (getOutputObject_attributes
           [("msg", VStr "hi"); ("extra", VStr "x")] "server").
  repeat constructor; simpl; intuition discriminate.
Defined.

(** ** Types that always carry a payload *)

(** X16: a message of type 333 or MODE that [parse] returns always has
    a msg.  With more than one token it is the tokens after the first
    joined by colons; with a single token it is the words of that token
    from index 4 (type 333) or index 3 (type MODE) on joined by spaces,
    which is the empty string when the token has no such words. *)
Theorem numeric_333_and_mode_have_msg (s output : string) (k : nat)
  (v : output_value) (m : ParsedMessage.t) :
  parse s output = Normal v -> fields_of v = Some m ->
  (ParsedMessage.type m = Some "333" /\ k = 4) \/
  (ParsedMessage.type m = Some "MODE" /\ k = 3) ->
  exists t0 rest,
    tokenize s = t0 :: rest /\
    ParsedMessage.msg m
    = Some (match rest with
            | [] => Py.join " " (skipn k (Py.words t0))
            | _ :: _ => Py.join ":" rest
            end) /\
    (rest = [] -> length (Py.words t0) <= k ->
     ParsedMessage.msg m = Some EmptyString).
Proof.
  intros Hv Hm. rewrite (parse_fields _ _ _ _ Hv Hm).
  destruct (decode_cases s)
    as [ Ha | [ (_ & t0 & rest & _ & Hd) | (_ & l & cd & Hl & Hc & Hd) ] ].
  - rewrite Ha. simpl. intros [[H _] | [H _]]; discriminate H.
  - rewrite Hd. simpl. intros [[H _] | [H _]]; discriminate H.
  - rewrite Hd. simpl. intros Hty.
    destruct (general_extraction_inv _ _ Hl)
      as (t0 & rest & w & cw & ws & c' & Ht & Hw & Hc' & Hcv & _ & Hmsg & Hor).
    rewrite Hc in Hc'. inversion Hc'; subst cd. clear Hc'.
    assert (Hact : action l = None \/ action l = Some cw).
    { destruct Hor as [ (_ & _ & _ & Hact & _) | (_ & _ & Hul) ];
        [ now left | ].
      destruct Hul as (n0 & u0 & h0 & a & ws' & _ & _ & _ & _ & Hws & Hact & _).
      inversion Hws; subst. now right. }
    assert (Hcw : (cw = "333" /\ k = 4) \/ (cw = "MODE" /\ k = 3)).
    { destruct Hact as [Hact | Hact]; rewrite Hact in Hty; simpl in Hty.
      - rewrite Hcv in Hty. destruct (is_int cw);
          [ | destruct Hty as [[H _] | [H _]]; discriminate H ].
        destruct Hty as [[H Hk] | [H Hk]]; inversion H; auto.
      - destruct cw; [ rewrite Hcv in Hty; simpl in Hty | ].
        + destruct Hty as [[H _] | [H _]]; discriminate H.
        + destruct Hty as [[H Hk] | [H Hk]]; inversion H; auto. }
    assert (Hpol : msg l
                   = Some (match rest with
                           | [] => Py.join " " (skipn k (Py.words t0))
                           | _ :: _ => Py.join ":" rest
                           end)).
    { rewrite Hmsg, Ht. unfold msg_policy.
      destruct rest as [ | t1 rest' ]; [ | reflexivity ].
      destruct Hcw as [[-> ->] | [-> ->]].
      - rewrite Hcv. change (is_int "333") with true. reflexivity.
      - rewrite Hcv. change (is_int "MODE") with false.
        destruct Hact as [Hact | Hact]; rewrite Hact in *.
        + simpl in Hty. rewrite Hcv in Hty.
          change (is_int "MODE") with false in Hty.
          destruct Hty as [[H _] | [H _]]; discriminate H.
        + reflexivity. }
    assert (Hfinal : (if opt_is (action l) "PART" then channel l else msg l)
                     = msg l).
    { destruct (opt_is (action l) "PART") eqn:Ep; [ | reflexivity ].
      apply opt_is_eq in Ep.
      destruct Hact as [Hact | Hact]; rewrite Hact in Ep; [ discriminate Ep | ].
      inversion Ep; subst cw.
      destruct Hcw as [[H _] | [H _]]; discriminate H. }
    exists t0, rest. split; [ exact Ht | ].
    rewrite Hfinal, Hpol. split; [ reflexivity | ].
    intros -> Hlen. now rewrite (skipn_all2 _ Hlen).
Qed.

Lemma numeric_333_and_mode_have_msg_witness :
  exists t0 rest,
    tokenize ":nick!u@h MODE #chan" = t0 :: rest /\
    Some EmptyString
    = Some (match rest with
            | [] => Py.join " " (skipn 3 (Py.words t0))
            | _ :: _ => Py.join ":" rest
            end) /\
    (rest = [] -> length (Py.words t0) <= 3 ->
     Some EmptyString = Some EmptyString).
Proof.
  exact (numeric_333_and_mode_have_msg ":nick!u@h MODE #chan" "tuple" 3
           (OutTuple [VNone; VStr "#chan"; VNone; VTuple ["nick"; "u"; "h"];
                      VStr "MODE"; VStr EmptyString])
           (ParsedMessage.mk None (Some "#chan") None (Some ("nick", "u", "h"))
              (Some "MODE") (Some EmptyString))
           eq_refl eq_refl (or_intror (conj eq_refl eq_refl))).
Defined.
